(** * GridHandler: a shallow embedding of [GridHandler/GridHandler.py]

    The development follows the layout of the Python module: string and path
    primitives of the Python runtime ([str.strip], [str.split], slicing,
    [posixpath.join], [posixpath.dirname]), then the [GridHandler] object with
    its helper methods, the two download backends, the glob resolver and the
    [download] driver.  Pure helpers are Rocq functions into a [result] type
    (a Python exception is an [Raise]); methods that touch the handler, the
    log, the filesystem or the grid are written in a state-and-exception
    monad over an explicit [World]. *)

From Stdlib Require Import ZArith Ascii String List Bool Lia.
From stdpp Require Import base strings list gmap pretty.

Import ListNotations.
Local Open Scope Z_scope.

(** ** Python results *)

(** The exception classes that the modelled code can raise, every one of them
    a subclass of [Exception].  [ExternalError] stands for what the grid
    client libraries raise and [except Exception] catches.  What is raised
    outside that class ([SystemExit], [KeyboardInterrupt]) is not modelled
    as a value of this type. *)
Inductive exn : Type :=
  | TypeError
  | IndexError
  | AttributeError
  | ValueError
  | OSError
  | ExternalError.

Inductive result (A : Type) : Type :=
  | Ok (a : A)
  | Raise (e : exn).
Arguments Ok {A} a.
Arguments Raise {A} e.

Definition raises {A} (r : result A) : bool :=
  match r with Ok _ => false | Raise _ => true end.

Definition rbind {A B} (r : result A) (k : A -> result B) : result B :=
  match r with Ok a => k a | Raise e => Raise e end.

Module PyStr.

Definition slash : ascii := "/"%char.

Definition is_slash (c : ascii) : bool := Ascii.eqb c slash.

Definition is_empty (s : string) : bool :=
  match s with EmptyString => true | String _ _ => false end.

(** [s.lstrip("/")] *)
Fixpoint lstrip (s : string) : string :=
  match s with
  | EmptyString => EmptyString
  | String c r => if is_slash c then lstrip r else s
  end.

(** [s.rstrip("/")] *)
Fixpoint rstrip (s : string) : string :=
  match s with
  | EmptyString => EmptyString
  | String c r =>
      let r' := rstrip r in
      if is_slash c && is_empty r' then EmptyString else String c r'
  end.

(** [s.strip("/")] *)
Definition strip (s : string) : string := rstrip (lstrip s).

(** [s.split(sep)] for a one-character separator: never the empty list. *)
Fixpoint split_on (sep : ascii) (s : string) : list string :=
  match s with
  | EmptyString => [EmptyString]
  | String c r =>
      if Ascii.eqb c sep then EmptyString :: split_on sep r
      else match split_on sep r with
           | h :: t => String c h :: t
           | [] => [String c EmptyString]
           end
  end.

(** [s.split("/")] *)
Definition split (s : string) : list string := split_on slash s.

(** Code points that [str.isspace] accepts, below 256. *)
Definition is_space (c : ascii) : bool :=
  let n := nat_of_ascii c in
  ((9 <=? n) && (n <=? 13) || (28 <=? n) && (n <=? 32)
   || (n =? 133) || (n =? 160))%nat.

(** The truth value of [s.strip()]: some character is not white space. *)
Fixpoint strip_nonempty (s : string) : bool :=
  match s with
  | EmptyString => false
  | String c r => negb (is_space c) || strip_nonempty r
  end.

(** [sep.join(l)] *)
Fixpoint join (sep : string) (l : list string) : string :=
  match l with
  | [] => EmptyString
  | [x] => x
  | x :: rest => x +:+ sep +:+ join sep rest
  end.

(** [s.startswith(p)] *)
Fixpoint startswith (p s : string) : bool :=
  match p, s with
  | EmptyString, _ => true
  | String a p', String b s' => Ascii.eqb a b && startswith p' s'
  | String _ _, EmptyString => false
  end.

(** [s.endswith("/")] *)
Fixpoint ends_with_slash (s : string) : bool :=
  match s with
  | EmptyString => false
  | String c EmptyString => is_slash c
  | String _ r => ends_with_slash r
  end.

Fixpoint has_slash (s : string) : bool :=
  match s with
  | EmptyString => false
  | String c r => is_slash c || has_slash r
  end.

(** [s == "/" * len(s)] *)
Fixpoint all_slashes (s : string) : bool :=
  match s with
  | EmptyString => true
  | String c r => is_slash c && all_slashes r
  end.

(** [s[:s.rfind("/") + 1]] *)
Fixpoint upto_last_slash (s : string) : string :=
  match s with
  | EmptyString => EmptyString
  | String c r =>
      if has_slash r then String c (upto_last_slash r)
      else if is_slash c then String c EmptyString
      else EmptyString
  end.

End PyStr.

(** ** Python slicing *)

Module PySlice.

(** How CPython adjusts one bound of [l[lo:hi]] for a list of length [n]. *)
Definition adjust (n i : Z) : Z :=
  if i <? 0 then Z.max (i + n) 0 else Z.min i n.

(** [l[lo:hi]]; a missing bound is [None]. *)
Definition slice {A} (l : list A) (lo hi : option Z) : list A :=
  let n := Z.of_nat (length l) in
  let a := match lo with Some i => adjust n i | None => 0 end in
  let b := match hi with Some i => adjust n i | None => n end in
  take (Z.to_nat (b - a)) (drop (Z.to_nat a) l).

(** [l[-1]] *)
Definition last_item {A} (l : list A) : result A :=
  match last l with
  | Some x => Ok x
  | None => Raise IndexError
  end.

End PySlice.

(** ** [os.path] (POSIX flavour) *)

Module OsPath.

(** One round of the loop of [posixpath.join]. *)
Definition join_step (path b : string) : string :=
  if PyStr.startswith "/" b then b
  else if PyStr.is_empty path || PyStr.ends_with_slash path then path +:+ b
  else path +:+ "/" +:+ b.

(** [os.path.join] on a first component [a] and further components [p]. *)
Definition join (a : string) (p : list string) : string :=
  fold_left join_step p a.

(** [os.path.join] on an unpacked argument list: without any argument the
    call itself fails (a required positional argument is missing). *)
Definition join_star (args : list string) : result string :=
  match args with
  | [] => Raise TypeError
  | a :: p => Ok (join a p)
  end.

(** [os.path.dirname(p)] *)
Definition dirname (p : string) : string :=
  let head := PyStr.upto_last_slash p in
  if negb (PyStr.is_empty head) && negb (PyStr.all_slashes head)
  then PyStr.rstrip head
  else head.

End OsPath.

(** ** The handler object *)

(** Address of a Python list object in the store. *)
Abbreviation loc := nat.

(** Handle returned by [alien.InitConnection()]. *)
Definition Session := nat.

(** An instance attribute: [del] removes the binding altogether, which is not
    the same as binding it to [None]. *)
Inductive attr (A : Type) : Type :=
  | Deleted
  | Bound (v : A).
Arguments Deleted {A}.
Arguments Bound {A} v.

(** An element of [alien_args]: a string, or the nested list that
    [__init__] appends. *)
Inductive xrd_arg : Type :=
  | ArgStr (s : string)
  | ArgList (l : list string).

Record GridHandler : Type := mkGridHandler {
  backend : string;
  output_dir : string;
  remote_files : option loc;
  remote_files_glob : option (list (string * string));
  num_workers : Z;
  keep_depth : option Z;
  alien_args : list xrd_arg;
  alien_session : attr (option Session)
}.

Definition with_remote_files (h : GridHandler) (v : option loc) : GridHandler :=
  mkGridHandler (backend h) (output_dir h) v (remote_files_glob h)
    (num_workers h) (keep_depth h) (alien_args h) (alien_session h).

Definition with_alien_session (h : GridHandler) (v : attr (option Session))
  : GridHandler :=
  mkGridHandler (backend h) (output_dir h) (remote_files h)
    (remote_files_glob h) (num_workers h) (keep_depth h) (alien_args h) v.

Definition with_keep_depth (h : GridHandler) (v : option Z) : GridHandler :=
  mkGridHandler (backend h) (output_dir h) (remote_files h)
    (remote_files_glob h) (num_workers h) v (alien_args h) (alien_session h).

(** *** Helper functions *)

Definition path_parts (remote_path : string) : list string :=
  PyStr.split (PyStr.strip remote_path).

Definition _unique_local_path (self : GridHandler) (remote_path : string)
  : result string :=
  let parts := path_parts remote_path in
  rbind (PySlice.last_item parts) (fun filename =>
  match keep_depth self with
  | None => Ok (OsPath.join (output_dir self) parts)
  | Some kd =>
      rbind (OsPath.join_star
               (PySlice.slice parts (Some (- (kd + 1))) (Some (-1))))
        (fun sub_path =>
           Ok (OsPath.join (output_dir self) [sub_path; filename]))
  end).

(** The [for depth in range(1, 10)] loop of [_auto_unique_path]; the result
    is the value of the [return] inside the loop, if it was reached, and the
    final contents of the local set. *)
Fixpoint auto_unique_loop (self : GridHandler) (remote_path : string)
    (seen : gset string) (depths : list Z) : option string * gset string :=
  match depths with
  | [] => (None, seen)
  | depth :: rest =>
      let local_name :=
        PyStr.join "_"
          (PySlice.slice (path_parts remote_path) (Some (- depth)) None) in
      if decide (local_name ∈ seen)
      then auto_unique_loop self remote_path seen rest
      else (Some (OsPath.join (output_dir self) [local_name]),
            {[ local_name ]} ∪ seen)
  end.

Definition _auto_unique_path (self : GridHandler)
    (remote_path filename : string) : string :=
  let seen : gset string := ∅ in
  match fst (auto_unique_loop self remote_path seen (seqZ 1 9)) with
  | Some r => r
  | None => OsPath.join (output_dir self) [filename]
  end.

(** ** The world around the handler *)

(** What [ROOT.gGrid] (and so the module global [_worker_grid_connection])
    can hold: Python's [None], a null [TGrid] pointer (falsy, yet not [None]),
    or a [TGrid] object together with the answer of its [IsConnected()]. *)
Inductive PyGrid : Type :=
  | PyNone
  | NullPtr
  | Handle (connected : bool).

Definition is_None (g : PyGrid) : bool :=
  match g with PyNone => true | _ => false end.

Definition truthy (g : PyGrid) : bool :=
  match g with Handle _ => true | _ => false end.

Definition IsConnected (g : PyGrid) : bool :=
  match g with Handle c => c | _ => false end.

(** A handle that the check after [TGrid::Connect] turns down: it is falsy
    or [IsConnected()] answers no. *)
Definition failed_handle (g : PyGrid) : bool :=
  negb (truthy g) || negb (IsConnected g).

Inductive level : Type := DEBUG | INFO | WARNING | ERROR.

(** One constructor per logging statement of the module. *)
Inductive LogRecord : Type :=
  | LogInitialized (backend output_dir : string)
  | LogAlienNotInstalled
  | LogConnecting
  | LogConnectFailed
  | LogSkipExisting (local_file : string)
  | LogAlienpyNoPool
  | LogUnknownBackend (backend : string)
  | LogTGridFailed
  | LogCopy (src local_file : string)
  | LogDownloadFailed (remote_file : string)
  | LogAlienStart (n : nat)
  | LogAlienFailed
  | LogAlienFinished
  | LogGlobNeedsAlien
  | LogResolving (n : nat)
  | LogNoResults (base pattern : string)
  | LogFound (n : nat) (base pattern : string)
  | LogFindError (base : string)
  | LogFoundViaGlob (n : nat)
  | LogNoRemoteFiles
  | LogStarting (backend : string) (n : nat)
  | LogUnsupported (backend : string)
  | LogDone (n_ok : Z) (total : nat).

Definition level_of (r : LogRecord) : level :=
  match r with
  | LogInitialized _ _ | LogFound _ _ _ => DEBUG
  | LogConnecting | LogSkipExisting _ | LogCopy _ _ | LogAlienStart _
  | LogAlienFinished | LogResolving _ | LogFoundViaGlob _ | LogStarting _ _
  | LogDone _ _ => INFO
  | LogAlienpyNoPool | LogNoResults _ _ | LogNoRemoteFiles => WARNING
  | LogAlienNotInstalled | LogConnectFailed | LogUnknownBackend _
  | LogTGridFailed | LogDownloadFailed _ | LogAlienFailed | LogGlobNeedsAlien
  | LogFindError _ | LogUnsupported _ => ERROR
  end.

(** Calls that leave the interpreter, in the order they are made. *)
Inductive Call : Type :=
  | CallMakedirs (d : string)
  | CallInitConnection
  | CallFind2 (search_args : list string)
  | CallXrootdCp (args : list xrd_arg) (api_src api_dst : list string)
  | CallTGridConnect
  | CallCp (src dst : string)
  | CallPool (processes : Z) (pickled : GridHandler)
      (jobs : list (string * string)).

(** The collaborators of the module, over a state [X] of the outside world
    (filesystem and grid): the [alienpy] client, ROOT, and [os]. *)
Record Externals (X : Type) : Type := mkExternals {
  (** the module-level [alien] is not [None] *)
  alien : bool;
  InitConnection : X -> result (option Session) * X;
  (** [None]: a falsy result or a result without [out]; else the text *)
  DO_find2 : Session -> list string -> X -> result (option string) * X;
  (** the value is the exit code of the copy, which the module ignores *)
  DO_XrootdCp :
    Session -> list xrd_arg -> list string -> list string -> X ->
    result Z * X;
  TGrid_Connect : X -> X;
  gGrid : X -> PyGrid;
  TFile_Cp : string -> string -> X -> bool * X;
  os_makedirs : string -> X -> result unit * X;
  os_path_exists : string -> X -> bool;
  (** the worker process of the pool that takes the job at a given index *)
  pool_assign : nat -> nat
}.
Arguments alien {X} _.
Arguments InitConnection {X} _ _.
Arguments DO_find2 {X} _ _ _ _.
Arguments DO_XrootdCp {X} _ _ _ _ _ _.
Arguments TGrid_Connect {X} _ _.
Arguments gGrid {X} _ _.
Arguments TFile_Cp {X} _ _ _ _.
Arguments os_makedirs {X} _ _ _.
Arguments os_path_exists {X} _ _ _.
Arguments pool_assign {X} _ _.

(** The state a method runs in: the handler object [self], the store of
    Python list objects, the module global of the running process, the
    outside world, and what has been logged and called so far. *)
Record World (X : Type) : Type := mkWorld {
  self : GridHandler;
  store : list (list string);
  _worker_grid_connection : PyGrid;
  ext : X;
  log : list LogRecord;
  calls : list Call
}.
Arguments mkWorld {X} _ _ _ _ _ _.
Arguments self {X} _.
Arguments store {X} _.
Arguments _worker_grid_connection {X} _.
Arguments ext {X} _.
Arguments log {X} _.
Arguments calls {X} _.

(** What [download] hands back to its caller. *)
Inductive PyRet : Type :=
  | RetNone
  | RetPair (success_count total_count : Z).

(** ** The state-and-exception monad *)

Definition M (X A : Type) : Type := World X -> result A * World X.

Section Monad.
Context {X : Type}.

Definition ret {A} (a : A) : M X A := fun w => (Ok a, w).

Definition bind {A B} (m : M X A) (k : A -> M X B) : M X B :=
  fun w => match m w with
           | (Ok a, w') => k a w'
           | (Raise e, w') => (Raise e, w')
           end.

Definition raise {A} (e : exn) : M X A := fun w => (Raise e, w).

(** [try: m except Exception: h] *)
Definition try_except {A} (m : M X A) (h : M X A) : M X A :=
  fun w => match m w with
           | (Ok a, w') => (Ok a, w')
           | (Raise _, w') => h w'
           end.

Definition lift {A} (r : result A) : M X A := fun w => (r, w).

Definition get_self : M X GridHandler := fun w => (Ok (self w), w).

Definition set_self (h : GridHandler) : M X unit :=
  fun w => (Ok tt, mkWorld h (store w) (_worker_grid_connection w)
                     (ext w) (log w) (calls w)).

(** [self.alien_session = v], and [del self.alien_session] for [Deleted]. *)
Definition set_alien_session (v : attr (option Session)) : M X unit :=
  fun w => (Ok tt, mkWorld (with_alien_session (self w) v) (store w)
                     (_worker_grid_connection w) (ext w) (log w) (calls w)).

(** [self.remote_files = v] *)
Definition set_remote_files (v : option loc) : M X unit :=
  fun w => (Ok tt, mkWorld (with_remote_files (self w) v) (store w)
                     (_worker_grid_connection w) (ext w) (log w) (calls w)).

Definition get_conn : M X PyGrid :=
  fun w => (Ok (_worker_grid_connection w), w).

Definition set_conn (g : PyGrid) : M X unit :=
  fun w => (Ok tt, mkWorld (self w) (store w) g (ext w) (log w) (calls w)).

Definition logger (r : LogRecord) : M X unit :=
  fun w => (Ok tt, mkWorld (self w) (store w) (_worker_grid_connection w)
                     (ext w) (log w ++ [r]) (calls w)).

Definition record_call (c : Call) : M X unit :=
  fun w => (Ok tt, mkWorld (self w) (store w) (_worker_grid_connection w)
                     (ext w) (log w) (calls w ++ [c])).

(** Run a collaborator on the outside world. *)
Definition external {A} (f : X -> A * X) : M X A :=
  fun w => let '(a, x') := f (ext w) in
           (Ok a, mkWorld (self w) (store w) (_worker_grid_connection w)
                    x' (log w) (calls w)).

Definition external_raising {A} (f : X -> result A * X) : M X A :=
  fun w => let '(r, x') := f (ext w) in
           (r, mkWorld (self w) (store w) (_worker_grid_connection w)
                 x' (log w) (calls w)).

Definition observe {A} (f : X -> A) : M X A := fun w => (Ok (f (ext w)), w).

(** *** Python list objects *)

(** The list an address refers to. *)
Definition deref (l : loc) : M X (list string) :=
  fun w => (Ok (default [] (store w !! l)), w).

(** A list display or comprehension: a new object. *)
Definition new_list (v : list string) : M X loc :=
  fun w => (Ok (length (store w)),
            mkWorld (self w) (store w ++ [v]) (_worker_grid_connection w)
              (ext w) (log w) (calls w)).

(** [l.extend(v)], in place. *)
Definition extend (l : loc) (v : list string) : M X unit :=
  fun w => (Ok tt,
            mkWorld (self w)
              (alter (fun old => old ++ v) l (store w))
              (_worker_grid_connection w) (ext w) (log w) (calls w)).

End Monad.

Declare Scope py_scope.
Delimit Scope py_scope with py.
Notation "'let!' x ':=' m 'in' k" := (bind m (fun x => k))
  (at level 10, x name, m at level 100, k at level 200) : py_scope.
Notation "'do!' m 'in' k" := (bind m (fun _ => k))
  (at level 10, m at level 100, k at level 200) : py_scope.

(** ** The methods of [GridHandler] *)

(** What the configuration holds under the key [alien_xrd_args]: a list
    object, known by its address, or a value with no [append] method (null,
    a number, a string, a mapping). *)
Inductive args_entry : Type :=
  | ArgsAt (l : loc)
  | ArgsNotAList.

(** The argument lists that the caller of the constructor holds, by
    address. *)
Abbreviation ArgStore := (list (list xrd_arg)).

(** The configuration mapping, one optional field per recognised key.
    [cfg_keep_depth] distinguishes an absent key from an explicit null;
    [cfg_remote_files] and [cfg_alien_xrd_args] refer to list objects of the
    caller.  The other entries are taken at the type the class works with:
    strings for [backend] and [output_dir], an integer for [num_workers]. *)
Record Config : Type := mkConfig {
  cfg_backend : option string;
  cfg_output_dir : option string;
  cfg_remote_files : option loc;
  cfg_remote_files_glob : option (list (string * string));
  cfg_num_workers : option Z;
  cfg_keep_depth : option (option Z);
  cfg_alien_xrd_args : option args_entry
}.

(** The default of [config.get("alien_xrd_args", ...)], a new list at every
    call. *)
Definition default_xrd_args : list xrd_arg :=
  [ArgStr "-timeout"; ArgStr "600"; ArgStr "-retry"; ArgStr "3"].

(** The element of line 34: [["-T", f"{self.num_workers}"]]. *)
Definition workers_arg (num_workers : Z) : xrd_arg :=
  ArgList ["-T"; pretty num_workers].

Definition with_conn {X} (g : PyGrid) (w : World X) : World X :=
  mkWorld (self w) (store w) g (ext w) (log w) (calls w).

(** The state [w] after some more log records and calls. *)
Definition after {X} (w : World X) (records : list LogRecord)
    (made : list Call) : World X :=
  mkWorld (self w) (store w) (_worker_grid_connection w) (ext w)
    (log w ++ records) (calls w ++ made).

(** Truth value of a list. *)
Definition nonempty {A} (l : list A) : bool :=
  match l with [] => false | _ :: _ => true end.

Definition add_prefix (prefix s : string) : string :=
  if PyStr.startswith prefix s then s else prefix +:+ s.

Section Program.
Context {X : Type} (E : Externals X).
Local Open Scope py_scope.

(** [GridHandler(config)].  [lists] holds the argument lists of the caller;
    the append of line 34 changes the list the configuration refers to in
    place, before [os.makedirs] has a chance to raise, so the lists come
    back whether or not the constructor returns.  The handler's
    [alien_args] is that list as the constructor leaves it; no method of
    the class changes it afterwards.  When the constructor raises, the
    object under construction is dropped and the handler in scope stays as
    it was. *)
Definition __init__ (config : Config) (lists : ArgStore) (w : World X)
  : result unit * ArgStore * World X :=
  let be := default "TGrid" (cfg_backend config) in
  let od := default "grid" (cfg_output_dir config) in
  let nw := default 16 (cfg_num_workers config) in
  let construct (args : list xrd_arg) : M X unit :=
    do! record_call (CallMakedirs od) in
    do! external_raising (os_makedirs E od) in
    do! logger (LogInitialized be od) in
    set_self
      (mkGridHandler be od (cfg_remote_files config)
         (cfg_remote_files_glob config) nw
         (default (Some 5) (cfg_keep_depth config)) args (Bound None)) in
  match cfg_alien_xrd_args config with
  | Some ArgsNotAList => (Raise AttributeError, lists, w)
  | Some (ArgsAt l) =>
      let lists' := alter (fun args => args ++ [workers_arg nw]) l lists in
      let '(r, w') := construct (default [] (lists' !! l)) w in
      (r, lists', w')
  | None =>
      let '(r, w') := construct (default_xrd_args ++ [workers_arg nw]) w in
      (r, lists, w')
  end.

(** *** AliEn connection *)

Definition _ensure_alien_connection : M X (option Session) :=
  if negb (alien E) then
    do! logger LogAlienNotInstalled in ret None
  else
    let! h := get_self in
    match alien_session h with
    | Deleted => raise AttributeError
    | Bound (Some s) => ret (Some s)
    | Bound None =>
        do! logger LogConnecting in
        do! record_call CallInitConnection in
        let! s := external_raising (InitConnection E) in
        do! set_alien_session (Bound s) in
        do! (match s with
             | None => logger LogConnectFailed
             | Some _ => ret tt
             end) in
        ret s
    end.

(** *** Download helpers *)

(** Lines 112 to 126: the copy once a connection is cached. *)
Definition tgrid_copy (remote_file local_file : string)
  : M X (option string) :=
  let src := add_prefix "alien://" remote_file in
  let dst := add_prefix "file:" local_file in
  do! logger (LogCopy src local_file) in
  do! record_call (CallCp src dst) in
  let! copied := external (TFile_Cp E src dst) in
  if copied : bool then ret (Some local_file)
  else do! logger (LogDownloadFailed remote_file) in ret None.

Definition _download_tgrid (remote_file local_file : string)
  : M X (option string) :=
  let! conn := get_conn in
  if is_None conn then
    do! record_call CallTGridConnect in
    do! external (fun x => (tt, TGrid_Connect E x)) in
    let! g := observe (gGrid E) in
    do! set_conn g in
    if failed_handle g then
      do! logger LogTGridFailed in ret None
    else tgrid_copy remote_file local_file
  else tgrid_copy remote_file local_file.

Definition _download_file (args : string * string) : M X (option string) :=
  let '(remote_file, local_file) := args in
  do! record_call (CallMakedirs (OsPath.dirname local_file)) in
  do! external_raising (os_makedirs E (OsPath.dirname local_file)) in
  let! present := observe (os_path_exists E local_file) in
  if present : bool then
    do! logger (LogSkipExisting local_file) in ret (Some local_file)
  else
    let! h := get_self in
    if String.eqb (backend h) "TGrid" then
      _download_tgrid remote_file local_file
    else if String.eqb (backend h) "alienpy" then
      do! logger LogAlienpyNoPool in ret None
    else
      do! logger (LogUnknownBackend (backend h)) in ret None.

Definition _download_alien (remote_files local_files : list string)
  : M X Z :=
  let! session := _ensure_alien_connection in
  match session with
  | None => ret 0
  | Some s =>
      let prefixed_remote := map (add_prefix "alien://") remote_files in
      let prefixed_local := map (add_prefix "file:") local_files in
      do! logger (LogAlienStart (length remote_files)) in
      let! h := get_self in
      let! completed :=
        try_except
          (do! record_call
                 (CallXrootdCp (alien_args h) prefixed_remote prefixed_local) in
           do! external_raising
                 (DO_XrootdCp E s (alien_args h) prefixed_remote
                    prefixed_local) in
           ret true)
          (do! logger LogAlienFailed in ret false) in
      if completed : bool then
        do! logger LogAlienFinished in
        ret (Z.of_nat (length remote_files))
      else ret 0
  end.

(** *** Glob resolution *)

(** The body of [for base, pattern in self.remote_files_glob]. *)
Fixpoint resolve_loop (session : Session) (found_files : loc)
    (globs : list (string * string)) : M X unit :=
  match globs with
  | [] => ret tt
  | (base, pattern) :: rest =>
      let search_args := ["-glob"; pattern; base] in
      do! try_except
            (do! record_call (CallFind2 search_args) in
             let! r := external_raising (DO_find2 E session search_args) in
             match r with
             | None => logger (LogNoResults base pattern)
             | Some out =>
                 if PyStr.is_empty out then logger (LogNoResults base pattern)
                 else
                   let files :=
                     filter (fun f => Is_true (PyStr.strip_nonempty f))
                       (PyStr.split_on "010"%char out) in
                   do! logger (LogFound (length files) base pattern) in
                   extend found_files files
             end)
            (logger (LogFindError base)) in
      resolve_loop session found_files rest
  end.

Definition _resolve_remote_globs : M X loc :=
  let! found_files := new_list [] in
  let! h := get_self in
  match remote_files_glob h with
  | None | Some [] => ret found_files
  | Some globs =>
      if negb (alien E) then
        do! logger LogGlobNeedsAlien in ret found_files
      else
        let! session := _ensure_alien_connection in
        match session with
        | None => ret found_files
        | Some s =>
            do! logger (LogResolving (length globs)) in
            do! resolve_loop s found_files globs in
            ret found_files
        end
  end.

(** *** The worker pool *)

(** Run [m] in a process whose module global is [g]; the parent's own
    global is untouched.  Returns the value together with the global the
    process is left with. *)
Definition in_process {A} (g : PyGrid) (m : M X A) : M X (A * PyGrid) :=
  fun w =>
    let parent := _worker_grid_connection w in
    match m (with_conn g w) with
    | (Ok a, w') => (Ok (a, _worker_grid_connection w'), with_conn parent w')
    | (Raise e, w') => (Raise e, with_conn parent w')
    end.

(** [pool.map(self._download_file, jobs)]: the job at index [i] runs in the
    worker [pool_assign E i]; [globals] is the module global of every
    worker.  Jobs run to completion in the order of submission; an
    exception in a job is raised again in the parent, and the jobs after
    it, which other workers may still run, are left out. *)
Fixpoint pool_map (jobs : list (string * string)) (i : nat)
    (globals : nat -> PyGrid) : M X (list (option string)) :=
  match jobs with
  | [] => ret []
  | job :: rest =>
      let wk := pool_assign E i in
      let! out := in_process (globals wk) (_download_file job) in
      let globals' :=
        fun k => if Nat.eqb k wk then snd out else globals k in
      let! outs := pool_map rest (S i) globals' in
      ret (fst out :: outs)
  end.

(** [with Pool(processes=n) as pool: results = pool.map(...)].  The
    handler travels to the workers as it is at this point; every worker
    starts with the parent's module global. *)
Definition run_pool (processes : Z) (jobs : list (string * string))
  : M X (list (option string)) :=
  if processes <? 1 then raise ValueError
  else
    let! h := get_self in
    do! record_call (CallPool processes h jobs) in
    let! parent := get_conn in
    pool_map jobs 0%nat (fun _ => parent).

(** *** Main download *)

(** [[(f, self._unique_local_path(f)) for f in self.remote_files]] *)
Fixpoint build_copy_list (h : GridHandler) (files : list string)
  : result (list (string * string)) :=
  match files with
  | [] => Ok []
  | f :: rest =>
      rbind (_unique_local_path h f) (fun local =>
      rbind (build_copy_list h rest) (fun tl => Ok ((f, local) :: tl)))
  end.

(** The list behind [self.remote_files], empty when it is [None]. *)
Definition current_files : M X (list string) :=
  let! h := get_self in
  match remote_files h with
  | None => ret []
  | Some l => deref l
  end.

(** Step 1: expand remote globs. *)
Definition expand_remote_globs : M X unit :=
  let! found := _resolve_remote_globs in
  let! found_files := deref found in
  if nonempty found_files then
    do! logger (LogFoundViaGlob (length found_files)) in
    let! h := get_self in
    let! files := current_files in
    match remote_files h with
    | Some l =>
        if nonempty files then extend l found_files
        else set_remote_files (Some found)
    | None => set_remote_files (Some found)
    end
  else ret tt.

(** Step 3: perform download. *)
Definition perform_download (copy_list : list (string * string))
  : M X PyRet :=
  let! h := get_self in
  if String.eqb (backend h) "TGrid" then
    (* Remove alien object to allow pickling *)
    do! (match alien_session h with
         | Bound _ => set_alien_session Deleted
         | Deleted => ret tt
         end) in
    let! results := run_pool (num_workers h) copy_list in
    let n_ok := Z.of_nat (length (filter is_Some results)) in
    do! logger (LogDone n_ok (length copy_list)) in
    ret RetNone
  else if String.eqb (backend h) "alienpy" then
    let! n_ok := _download_alien (map fst copy_list) (map snd copy_list) in
    do! logger (LogDone n_ok (length copy_list)) in
    ret RetNone
  else
    do! logger (LogUnsupported (backend h)) in ret RetNone.

Definition download : M X PyRet :=
  do! expand_remote_globs in
  let! files := current_files in
  if negb (nonempty files) then
    do! logger LogNoRemoteFiles in ret RetNone
  else
    (* Step 2: build local paths *)
    let! h := get_self in
    let! copy_list := lift (build_copy_list h files) in
    do! logger (LogStarting (backend h) (length copy_list)) in
    perform_download copy_list.

End Program.

(** ** A small concrete outside world

    Enough of a filesystem and a grid to run the methods on concrete inputs:
    the disk is the list of paths present, directories are implicit, and the
    replies of the grid clients are fixed in advance. *)

Module Sim.

Record Outside : Type := mkOutside {
  disk : list string;
  catalogue : list string;
  grid_now : PyGrid;
  grid_after_connect : PyGrid;
  session_reply : result (option Session);
  find_reply : list (list string * result (option string));
  xrootd_ok : bool
}.

Definition with_disk (x : Outside) (d : list string) : Outside :=
  mkOutside d (catalogue x) (grid_now x) (grid_after_connect x)
    (session_reply x) (find_reply x) (xrootd_ok x).

Definition strip_file_prefix (dst : string) : string :=
  if PyStr.startswith "file:" dst
  then String.substring 5 (String.length dst - 5) dst
  else dst.

Fixpoint assoc (k : list string)
    (t : list (list string * result (option string)))
  : result (option string) :=
  match t with
  | [] => Ok None
  | (k', v) :: rest => if bool_decide (k = k') then v else assoc k rest
  end.

Definition externals : Externals Outside := {|
  alien := true;
  InitConnection := fun x => (session_reply x, x);
  DO_find2 := fun _ search_args x => (assoc search_args (find_reply x), x);
  DO_XrootdCp := fun _ _ _ dst x =>
    if xrootd_ok x
    then (Ok 0, with_disk x (disk x ++ map strip_file_prefix dst))
    else (Raise ExternalError, x);
  TGrid_Connect := fun x =>
    mkOutside (disk x) (catalogue x) (grid_after_connect x)
      (grid_after_connect x) (session_reply x) (find_reply x) (xrootd_ok x);
  gGrid := grid_now;
  TFile_Cp := fun src dst x =>
    if bool_decide (src ∈ catalogue x)
    then (true, with_disk x (disk x ++ [strip_file_prefix dst]))
    else (false, x);
  os_makedirs := fun d x =>
    if PyStr.is_empty d then (Raise OSError, x) else (Ok tt, x);
  os_path_exists := fun p x => bool_decide (p ∈ disk x);
  pool_assign := fun i => (i mod 2)%nat
|}.

(** A handler as [__init__] leaves it, with the default [keep_depth]. *)
Definition handler (be : string) (files : option loc)
    (globs : option (list (string * string))) : GridHandler :=
  mkGridHandler be "grid" files globs 16 (Some 5)
    [ArgStr "-timeout"; ArgStr "600"; ArgStr "-retry"; ArgStr "3";
     ArgList ["-T"; "16"]] (Bound None).

Definition world (h : GridHandler) (lists : list (list string))
    (x : Outside) : World Outside :=
  mkWorld h lists PyNone x [] [].

(** A grid that is down: [TGrid::Connect] leaves a handle that reports not
    connected, [InitConnection] gives no session, copies fail. *)
Definition grid_down : Outside :=
  mkOutside [] [] PyNone (Handle false) (Ok None) [] false.

(** A grid that serves two files below [/a]. *)
Definition grid_up (on_disk : list string) : Outside :=
  mkOutside on_disk ["alien:///a/b/f.root"; "alien:///a/c/g.root"]
    PyNone (Handle true) (Ok (Some 7%nat))
    [(["-glob"; "*.root"; "/a"],
      Ok (Some ("/a/b/f.root" +:+ String "010" "/a/c/g.root")))]
    true.

End Sim.

(** ** What a method may change

    [steps R m] says that running [m] relates the state before to the state
    after by [R], whether it returns or raises.  The classes below list which
    primitive updates a relation admits. *)

Definition steps {X A} (R : relation (World X)) (m : M X A) : Prop :=
  forall w, R w (snd (m w)).

Class Frame {X} (R : relation (World X)) : Prop := {
  frame_preorder :: PreOrder R;
  frame_log : forall w r,
    R w (mkWorld (self w) (store w) (_worker_grid_connection w) (ext w)
           (log w ++ [r]) (calls w));
  frame_ext : forall w x,
    R w (mkWorld (self w) (store w) (_worker_grid_connection w) x
           (log w) (calls w));
  frame_conn : forall w g, R w (with_conn g w)
}.

Class FrameCalls {X} (R : relation (World X)) (allowed : Call -> bool) : Prop :=
  frame_call : forall w c, allowed c = true ->
    R w (mkWorld (self w) (store w) (_worker_grid_connection w) (ext w)
           (log w) (calls w ++ [c])).

Class FrameSession {X} (R : relation (World X)) : Prop :=
  frame_session : forall w v,
    R w (mkWorld (with_alien_session (self w) v) (store w)
           (_worker_grid_connection w) (ext w) (log w) (calls w)).

Class FrameRemoteFiles {X} (R : relation (World X)) : Prop :=
  frame_remote_files : forall w v,
    R w (mkWorld (with_remote_files (self w) v) (store w)
           (_worker_grid_connection w) (ext w) (log w) (calls w)).

Class FrameExtend {X} (R : relation (World X)) (l : loc) : Prop :=
  frame_extend : forall w v,
    R w (mkWorld (self w) (alter (fun old => old ++ v) l (store w))
           (_worker_grid_connection w) (ext w) (log w) (calls w)).

Class FrameAlloc {X} (R : relation (World X)) : Prop :=
  frame_alloc : forall w v,
    R w (mkWorld (self w) (store w ++ [v]) (_worker_grid_connection w)
           (ext w) (log w) (calls w)).

Definition any_call (c : Call) : bool := true.

(** The calls of the query client. *)
Definition is_query_call (c : Call) : bool :=
  match c with
  | CallInitConnection | CallFind2 _ => true
  | _ => false
  end.

Section Relations.
Context {X : Type}.
Implicit Types (w : World X).

(** The list objects and the binding of [self.remote_files] stay. *)
Definition keeps_files : relation (World X) := fun w w' =>
  store w' = store w /\ remote_files (self w') = remote_files (self w).

(** Only the query client is called. *)
Definition only_query_calls : relation (World X) := fun w w' =>
  exists cs, calls w' = calls w ++ cs
             /\ forallb is_query_call cs = true.

(** No list object other than the one at [found] changes, and
    [self.remote_files] stays bound as it is. *)
Definition touches_only (found : loc) : relation (World X) := fun w w' =>
  (forall l, l <> found -> store w' !! l = store w !! l)
  /\ remote_files (self w') = remote_files (self w).

(** The handler object stays as it is and earlier calls stay on record. *)
Definition keeps_handler : relation (World X) := fun w w' =>
  self w' = self w /\ exists cs, calls w' = calls w ++ cs.

End Relations.

(** ** Assumptions on the filesystem *)

(** [os.makedirs(d, exist_ok=True)] on the parent directory of a path that
    exists: the directory is there, nothing is created, nothing is raised.
    The parent of a bare file name is the empty string, on which
    [os.makedirs] raises, so such paths are left out. *)
Definition makedirs_tolerates_existing {X} (E : Externals X) : Prop :=
  forall x p,
    os_path_exists E p x = true ->
    OsPath.dirname p <> "" ->
    os_makedirs E (OsPath.dirname p) x = (Ok tt, x).
(** ** The command line entry point ([__main__.py]) *)

(** What [parser.parse_args()] does with the command line: it returns the
    arguments with the path given to [--config], or it prints the help text
    and raises [SystemExit(0)] ([-h], [--help]), or it prints a usage error
    and raises [SystemExit(2)] (no [--config], an argument it does not
    know). *)
Inductive Parsed : Type :=
  | ParsedArgs (config_path : string)
  | HelpRequested
  | UsageError.

(** A JSON object as [json.load] builds it: new lists for [remote_files]
    and [alien_xrd_args].  An [alien_xrd_args] entry that is no list is
    [Some None]. *)
Record Document : Type := mkDocument {
  doc_backend : option string;
  doc_output_dir : option string;
  doc_remote_files : option (list string);
  doc_remote_files_glob : option (list (string * string));
  doc_num_workers : option Z;
  doc_keep_depth : option (option Z);
  doc_alien_xrd_args : option (option (list xrd_arg))
}.

(** What opening and parsing the configuration file gives: an exception
    (no such file, no valid JSON), a JSON object, or a JSON value of
    another kind (a list, a string, a number, null). *)
Inductive Loaded : Type :=
  | ReadRaises (e : exn)
  | ReadObject (doc : Document)
  | ReadOther.

(** How [main] ends: it returns, or [parse_args] ends the process with its
    own status, or [main] logs which stage failed and calls
    [sys.exit(1)]. *)
Inductive MainOutcome : Type :=
  | MainDone
  | ArgparseExit (code : Z)
  | ConfigReadFailed
  | InitFailed
  | DownloadFailed.

(** The status the process exits with. *)
Definition exit_status (o : MainOutcome) : Z :=
  match o with
  | MainDone => 0
  | ArgparseExit code => code
  | ConfigReadFailed | InitFailed | DownloadFailed => 1
  end.

(** The entry of the configuration for the argument list of a document,
    and the caller's lists that go with it. *)
Definition args_entry_of (doc : Document) : option args_entry :=
  match doc_alien_xrd_args doc with
  | None => None
  | Some None => Some ArgsNotAList
  | Some (Some _) => Some (ArgsAt 0%nat)
  end.

Definition arg_lists_of (doc : Document) : ArgStore :=
  match doc_alien_xrd_args doc with
  | Some (Some args) => [args]
  | _ => []
  end.

Section Main.
Context {X : Type} (E : Externals X).
Local Open Scope py_scope.

(** The dictionary that [json.load] returns for an object: its
    [remote_files] list is a new object. *)
Definition load_config (doc : Document) : M X Config :=
  let! files :=
    match doc_remote_files doc with
    | None => ret None
    | Some fs => let! l := new_list fs in ret (Some l)
    end in
  ret (mkConfig (doc_backend doc) (doc_output_dir doc) files
         (doc_remote_files_glob doc) (doc_num_workers doc)
         (doc_keep_depth doc) (args_entry_of doc)).

(** [main()], given what [parse_args] makes of the command line and what
    reading a configuration file gives.  The three [try] blocks catch
    [Exception], the class of every [exn]: an exception outside that class
    would pass through them and is not modelled.  A configuration that is
    no JSON object has no [get] method, so the constructor raises
    [AttributeError] on it at its first line. *)
Definition main (args : Parsed) (read_config : string -> Loaded)
  : M X MainOutcome :=
  match args with
  | HelpRequested => ret (ArgparseExit 0)
  | UsageError => ret (ArgparseExit 2)
  | ParsedArgs config_path =>
      match read_config config_path with
      | ReadRaises _ => ret ConfigReadFailed
      | ReadOther => ret InitFailed
      | ReadObject doc =>
          let! config := load_config doc in
          let! built :=
            (fun w =>
               match __init__ E config (arg_lists_of doc) w with
               | (Ok _, _, w') => (Ok true, w')
               | (Raise _, _, w') => (Ok false, w')
               end) in
          if built : bool then
            try_except (do! download E in ret MainDone) (ret DownloadFailed)
          else ret InitFailed
      end
  end.

End Main.

(** ** More vocabulary for the properties *)

(** [os.makedirs(d, exist_ok=True)] succeeds on every directory. *)
Definition makedirs_never_raises {X} (E : Externals X) : Prop :=
  forall d x, fst (os_makedirs E d x) = Ok tt.

(** The query sent for one glob spec, and for a list of them. *)
Definition find_call (glob : string * string) : Call :=
  CallFind2 ["-glob"; snd glob; fst glob].

Definition find_calls (globs : list (string * string)) : list Call :=
  map find_call globs.

(** [c in s] for a character. *)
Fixpoint str_contains (c : ascii) (s : string) : bool :=
  match s with
  | EmptyString => false
  | String a r => Ascii.eqb a c || str_contains c r
  end.

(** A line as glob resolution keeps it: no line break inside, and something
    other than white space in it. *)
Definition kept_line (f : string) : Prop :=
  str_contains "010" f = false /\ PyStr.strip_nonempty f = true.

(** What a job of the pool can hand back: [None], or its own local path. *)
Definition job_outcome (job : string * string) (r : option string) : Prop :=
  r = None \/ r = Some (snd job).

(** The configuration part of the handler stays as it is. *)
Definition keeps_config {X} : relation (World X) := fun w w' =>
  backend (self w') = backend (self w)
  /\ output_dir (self w') = output_dir (self w)
  /\ keep_depth (self w') = keep_depth (self w)
  /\ num_workers (self w') = num_workers (self w)
  /\ remote_files_glob (self w') = remote_files_glob (self w)
  /\ alien_args (self w') = alien_args (self w).

(** The grid is up and stays up, and whether a copy succeeds is decided by
    its source alone. *)
Definition grid_serves {X} (E : Externals X) (served : string -> bool)
  : Prop :=
  (forall x, gGrid E (TGrid_Connect E x) = Handle true)
  /\ (forall src dst x, fst (TFile_Cp E src dst x) = served src).

(** A module global that lets a job through to the copy: no connection
    yet, or a live one. *)
Definition usable (g : PyGrid) : Prop := g = PyNone \/ g = Handle true.

(** What a job of the pool hands back when the grid serves [served]. *)
Definition served_outcome (served : string -> bool) (job : string * string)
    (r : option string) : Prop :=
  job_outcome job r
  /\ (served (add_prefix "alien://" (fst job)) = true -> r = Some (snd job)).

(** The jobs whose source the grid serves. *)
Definition served_jobs (served : string -> bool)
    (jobs : list (string * string)) : list (string * string) :=
  filter (fun job => served (add_prefix "alien://" (fst job)) = true) jobs.

(** ** More outside worlds *)

(** The sources that [sim_steady] serves. *)
Definition steady_serves (src : string) : bool :=
  bool_decide (src ∈ ["alien:///a/b/f.root"; "alien:///a/c/g.root"]).

(** The collaborators of [Sim] with a grid that always connects and serves
    two files, and an [os.makedirs] that creates whatever it is asked
    for. *)
Definition sim_steady : Externals Sim.Outside := {|
  alien := alien Sim.externals;
  InitConnection := InitConnection Sim.externals;
  DO_find2 := DO_find2 Sim.externals;
  DO_XrootdCp := DO_XrootdCp Sim.externals;
  TGrid_Connect := fun x =>
    Sim.mkOutside (Sim.disk x) (Sim.catalogue x) (Handle true) (Handle true)
      (Sim.session_reply x) (Sim.find_reply x) (Sim.xrootd_ok x);
  gGrid := Sim.grid_now;
  TFile_Cp := fun src dst x =>
    if steady_serves src
    then (true,
          Sim.with_disk x (Sim.disk x ++ [Sim.strip_file_prefix dst]))
    else (false, x);
  os_makedirs := fun _ x => (Ok tt, x);
  os_path_exists := os_path_exists Sim.externals;
  pool_assign := pool_assign Sim.externals
|}.

(** The collaborators of [Sim] with a copy client that does not raise but
    reports failure: it returns exit code 1 and writes nothing. *)
Definition sim_failed_copy : Externals Sim.Outside := {|
  alien := alien Sim.externals;
  InitConnection := InitConnection Sim.externals;
  DO_find2 := DO_find2 Sim.externals;
  DO_XrootdCp := fun _ _ _ _ x => (Ok 1, x);
  TGrid_Connect := TGrid_Connect Sim.externals;
  gGrid := gGrid Sim.externals;
  TFile_Cp := TFile_Cp Sim.externals;
  os_makedirs := os_makedirs Sim.externals;
  os_path_exists := os_path_exists Sim.externals;
  pool_assign := pool_assign Sim.externals
|}.

(** A configuration file that names one remote file. *)
Definition one_file_document : Document :=
  mkDocument None None (Some ["/a/b/f.root"]) None None None None.

(** Command lines and configuration files for [main]: every path holds
    [one_file_document]. *)
Definition read_one_file (config_path : string) : Loaded :=
  ReadObject one_file_document.

(** * Properties *)

(** ** Strings, slices and paths *)

Section StringFacts.

Lemma append_nil (t : string) : "" +:+ t = t.
Proof. reflexivity. Qed.

Lemma append_cons (c : ascii) (s t : string) :
  String c s +:+ t = String c (s +:+ t).
Proof. reflexivity. Qed.

Lemma append_empty_r (s : string) : s +:+ "" = s.
Proof.
  induction s as [|c s IH]; [reflexivity|].
  now rewrite append_cons, IH.
Qed.

Lemma append_assoc (a b c : string) : (a +:+ b) +:+ c = a +:+ (b +:+ c).
Proof.
  induction a as [|x a IH]; [reflexivity|].
  now rewrite !append_cons, IH.
Qed.

Lemma is_empty_append (a b : string) :
  PyStr.is_empty (a +:+ b) = PyStr.is_empty a && PyStr.is_empty b.
Proof. destruct a; reflexivity. Qed.

Lemma is_empty_true (s : string) : PyStr.is_empty s = true <-> s = "".
Proof. destruct s; simpl; split; congruence. Qed.

Lemma ends_with_slash_append (a b : string) :
  PyStr.ends_with_slash (a +:+ b) =
  if PyStr.is_empty b then PyStr.ends_with_slash a
  else PyStr.ends_with_slash b.
Proof.
  induction a as [|x a IH].
  - rewrite append_nil. destruct b; reflexivity.
  - rewrite append_cons. simpl. rewrite IH.
    destruct a as [|y a].
    + rewrite append_nil. destruct b; reflexivity.
    + rewrite append_cons. reflexivity.
Qed.

Lemma has_slash_append (a b : string) :
  PyStr.has_slash (a +:+ b) = PyStr.has_slash a || PyStr.has_slash b.
Proof.
  induction a as [|x a IH]; [reflexivity|].
  rewrite append_cons. simpl. rewrite IH. now rewrite orb_assoc.
Qed.

Lemma ends_with_slash_has_slash (s : string) :
  PyStr.ends_with_slash s = true -> PyStr.has_slash s = true.
Proof.
  induction s as [|c s IH]; simpl; [congruence|].
  destruct s as [|d s].
  - intros ->. reflexivity.
  - intros H. rewrite (IH H). apply orb_true_r.
Qed.

Lemma startswith_slash_has_slash (s : string) :
  PyStr.startswith "/" s = true -> PyStr.has_slash s = true.
Proof.
  destruct s as [|c s]; [discriminate|].
  cbn [PyStr.startswith PyStr.has_slash].
  unfold PyStr.is_slash, PyStr.slash. rewrite (Ascii.eqb_sym c).
  destruct (Ascii.eqb "/" c); [reflexivity | discriminate].
Qed.

(** Neither [strip] nor [split] changes a string without a slash. *)
Lemma lstrip_no_slash (s : string) :
  PyStr.has_slash s = false -> PyStr.lstrip s = s.
Proof.
  destruct s as [|c s]; simpl; [reflexivity|].
  intros H. apply orb_false_elim in H as [-> _]. reflexivity.
Qed.

Lemma rstrip_no_slash (s : string) :
  PyStr.has_slash s = false -> PyStr.rstrip s = s.
Proof.
  induction s as [|c s IH]; simpl; [reflexivity|].
  intros H. apply orb_false_elim in H as [-> H]. now rewrite (IH H).
Qed.

Lemma split_no_slash (s : string) :
  PyStr.has_slash s = false -> PyStr.split s = [s].
Proof.
  unfold PyStr.split.
  induction s as [|c s IH]; simpl; [reflexivity|].
  intros H. apply orb_false_elim in H as [Hc H].
  unfold PyStr.is_slash in Hc. rewrite Hc, (IH H). reflexivity.
Qed.

Lemma split_on_not_nil (sep : ascii) (s : string) : PyStr.split_on sep s <> [].
Proof.
  destruct s as [|c s]; simpl; [congruence|].
  destruct (Ascii.eqb c sep); [congruence|].
  destruct (PyStr.split_on sep s); congruence.
Qed.

Lemma path_parts_not_nil (remote_path : string) : path_parts remote_path <> [].
Proof. apply split_on_not_nil. Qed.

Lemma path_parts_filename_only (name : string) :
  PyStr.has_slash name = false -> path_parts name = [name].
Proof.
  intros H. unfold path_parts, PyStr.strip.
  rewrite (lstrip_no_slash _ H), (rstrip_no_slash _ H).
  now apply split_no_slash.
Qed.

(** [parts[-1]] never fails on the result of a split. *)
Lemma last_item_path_parts (remote_path : string) :
  exists filename, PySlice.last_item (path_parts remote_path) = Ok filename.
Proof.
  unfold PySlice.last_item.
  destruct (last (path_parts remote_path)) as [x|] eqn:E; [eauto|].
  apply last_None in E. now apply path_parts_not_nil in E.
Qed.

End StringFacts.

Section SliceFacts.
Context {A : Type}.
Implicit Types (l dirs : list A).

(** [l[i:-1]] of a one-element list is empty, whatever [i] is. *)
Lemma slice_singleton (x : A) (i : Z) :
  PySlice.slice [x] (Some i) (Some (-1)) = [].
Proof.
  unfold PySlice.slice, PySlice.adjust. simpl length.
  replace (Z.to_nat _) with 0%nat; [reflexivity|].
  destruct (i <? 0) eqn:Hi; simpl; lia.
Qed.

(** With at most [kd] directories in front of the last item,
    [l[-(kd+1):-1]] is all of them. *)
Lemma slice_all_dirs dirs (filename : A) (kd : Z) :
  Z.of_nat (length dirs) <= kd ->
  PySlice.slice (dirs ++ [filename]) (Some (- (kd + 1))) (Some (-1)) = dirs.
Proof.
  intros Hkd. unfold PySlice.slice, PySlice.adjust.
  rewrite length_app. simpl length.
  replace (- (kd + 1) <? 0) with true by (symmetry; apply Z.ltb_lt; lia).
  replace (-1 <? 0) with true by reflexivity.
  replace (Z.max (- (kd + 1) + Z.of_nat (length dirs + 1)) 0) with 0 by lia.
  replace (Z.to_nat (Z.max (-1 + Z.of_nat (length dirs + 1)) 0 - 0))
    with (length dirs) by lia.
  simpl. apply take_app_length.
Qed.

(** The slice is not empty once there is a directory and [kd] is positive. *)
Lemma slice_dirs_not_nil l (kd : Z) :
  1 <= kd -> (2 <= length l)%nat ->
  PySlice.slice l (Some (- (kd + 1))) (Some (-1)) <> [].
Proof.
  intros Hkd Hlen Hnil. apply (f_equal length) in Hnil.
  unfold PySlice.slice, PySlice.adjust in Hnil.
  replace (- (kd + 1) <? 0) with true in Hnil
    by (symmetry; apply Z.ltb_lt; lia).
  replace (-1 <? 0) with true in Hnil by reflexivity.
  rewrite length_take, length_drop in Hnil. simpl in Hnil. lia.
Qed.

End SliceFacts.

(** ** The path mapper *)

Section PathMapper.
Implicit Types (h : GridHandler) (remote_path : string).

Lemma unique_local_path_unset h remote_path :
  keep_depth h = None ->
  _unique_local_path h remote_path =
  Ok (OsPath.join (output_dir h) (path_parts remote_path)).
Proof.
  intros Hkd. unfold _unique_local_path. rewrite Hkd.
  destruct (last_item_path_parts remote_path) as [fn ->]. reflexivity.
Qed.

Lemma unique_local_path_set h remote_path kd :
  keep_depth h = Some kd ->
  _unique_local_path h remote_path =
  match PySlice.slice (path_parts remote_path) (Some (- (kd + 1))) (Some (-1)),
        last (path_parts remote_path) with
  | d :: ds, Some filename =>
      Ok (OsPath.join (output_dir h) [OsPath.join d ds; filename])
  | _, _ => Raise TypeError
  end.
Proof.
  intros Hkd. unfold _unique_local_path, PySlice.last_item. rewrite Hkd.
  destruct (last (path_parts remote_path)) as [fn|] eqn:E.
  - simpl. destruct (PySlice.slice _ _ _); reflexivity.
  - apply last_None in E. now apply path_parts_not_nil in E.
Qed.

(** The part of the keep-depth rule that holds: when the path has some
    directories, but no more than [keep_depth], all of them are kept. *)
Lemma unique_local_path_fewer_dirs h remote_path kd d ds filename :
  keep_depth h = Some kd ->
  path_parts remote_path = (d :: ds) ++ [filename] ->
  Z.of_nat (length (d :: ds)) <= kd ->
  _unique_local_path h remote_path =
  Ok (OsPath.join (output_dir h) [OsPath.join d ds; filename]).
Proof.
  intros Hkd Hparts Hlen.
  rewrite (unique_local_path_set _ _ _ Hkd), Hparts.
  rewrite (slice_all_dirs _ _ _ Hlen), last_snoc. reflexivity.
Qed.

(** Joining onto an output directory that is not empty and does not end in
    a slash puts one slash in between. *)
Lemma join_step_plain (path b : string) :
  PyStr.is_empty path = false -> PyStr.ends_with_slash path = false ->
  PyStr.startswith "/" b = false ->
  OsPath.join_step path b = path +:+ "/" +:+ b.
Proof.
  intros H1 H2 H3. unfold OsPath.join_step. now rewrite H1, H2, H3.
Qed.

(** The loop of [_auto_unique_path] returns in its first round: the set it
    consults has just been created. *)
Lemma auto_unique_path_depth_one h remote_path filename :
  _auto_unique_path h remote_path filename =
  OsPath.join (output_dir h)
    [PyStr.join "_" (PySlice.slice (path_parts remote_path) (Some (-1)) None)].
Proof.
  unfold _auto_unique_path.
  change (seqZ 1 9) with (1 :: seqZ 2 8).
  cbn [auto_unique_loop].
  destruct (decide _) as [Hin|_]; [|reflexivity].
  now apply not_elem_of_empty in Hin.
Qed.

End PathMapper.

(** ** Claims about the path mapper *)

Section MapperClaims.
Implicit Types (h : GridHandler) (remote_path : string).

Lemma join_step_separator (path b : string) :
  PyStr.is_empty path = false -> PyStr.ends_with_slash path = false ->
  PyStr.startswith "/" b = false ->
  PyStr.is_empty b = false -> PyStr.ends_with_slash b = false ->
  OsPath.join_step path b = path +:+ "/" +:+ b
  /\ PyStr.is_empty (path +:+ "/" +:+ b) = false
  /\ PyStr.ends_with_slash (path +:+ "/" +:+ b) = false.
Proof.
  intros H1 H2 H3 H4 H5. split; [now apply join_step_plain|].
  rewrite is_empty_append, H1. split; [reflexivity|].
  rewrite ends_with_slash_append, is_empty_append.
  simpl PyStr.is_empty. simpl andb. cbv iota.
  rewrite ends_with_slash_append, H4. exact H5.
Qed.

(** C2, keep-depth boundary.  For an output directory that is not empty and
    does not end in a slash, the remote path [/a/b/c/d.root] is mapped to
    [output_dir/a/b/c/d.root] when [keep_depth] is [None] and to
    [output_dir/b/c/d.root] when it is 2; when it is 0 the code does not
    return [output_dir/d.root]: the slice of directories is empty and
    [os.path.join] is called without arguments, which raises [TypeError]. *)
Theorem keep_depth_boundary h :
  PyStr.is_empty (output_dir h) = false ->
  PyStr.ends_with_slash (output_dir h) = false ->
  _unique_local_path (with_keep_depth h None) "/a/b/c/d.root"
    = Ok (output_dir h +:+ "/a/b/c/d.root")
  /\ _unique_local_path (with_keep_depth h (Some 2)) "/a/b/c/d.root"
    = Ok (output_dir h +:+ "/b/c/d.root")
  /\ _unique_local_path (with_keep_depth h (Some 0)) "/a/b/c/d.root"
    = Raise TypeError.
Proof.
  intros Hne Hns. split; [|split].
  - rewrite unique_local_path_unset by reflexivity.
    change (path_parts "/a/b/c/d.root") with ["a"; "b"; "c"; "d.root"].
    change (output_dir (with_keep_depth h None)) with (output_dir h).
    unfold OsPath.join. cbn [fold_left].
    destruct (join_step_separator (output_dir h) "a") as (-> & Ha1 & Ha2);
      try reflexivity; try assumption.
    destruct (join_step_separator _ "b" Ha1 Ha2) as (-> & Hb1 & Hb2);
      try reflexivity.
    destruct (join_step_separator _ "c" Hb1 Hb2) as (-> & Hc1 & Hc2);
      try reflexivity.
    destruct (join_step_separator _ "d.root" Hc1 Hc2) as (-> & _ & _);
      try reflexivity.
    rewrite !append_assoc. reflexivity.
  - rewrite (unique_local_path_set _ _ 2) by reflexivity.
    change (path_parts "/a/b/c/d.root") with ["a"; "b"; "c"; "d.root"].
    change (PySlice.slice ["a"; "b"; "c"; "d.root"] (Some (- (2 + 1)))
              (Some (-1))) with ["b"; "c"].
    change (last ["a"; "b"; "c"; "d.root"]) with (Some "d.root").
    cbv beta iota.
    change (OsPath.join "b" ["c"]) with "b/c".
    change (output_dir (with_keep_depth h (Some 2))) with (output_dir h).
    unfold OsPath.join. cbn [fold_left].
    destruct (join_step_separator (output_dir h) "b/c") as (-> & Ha1 & Ha2);
      try reflexivity; try assumption.
    destruct (join_step_separator _ "d.root" Ha1 Ha2) as (-> & _ & _);
      try reflexivity.
    rewrite !append_assoc. reflexivity.
  - reflexivity.
Qed.

(** C3, fewer directories than [keep_depth].  A remote path that consists
    of a file name only has no directory segment to keep: for every integer
    [keep_depth] the slice is empty and the mapper raises [TypeError]
    instead of returning a path. *)
Theorem filename_only_raises h kd name :
  keep_depth h = Some kd ->
  PyStr.has_slash name = false ->
  _unique_local_path h name = Raise TypeError.
Proof.
  intros Hkd Hname.
  rewrite (unique_local_path_set _ _ _ Hkd).
  rewrite (path_parts_filename_only _ Hname), slice_singleton.
  reflexivity.
Qed.

(** C4, as amended.  The mapper rejects no input as malformed.  With
    [keep_depth] unset it returns a path for every remote path, the empty
    one included, which is mapped to the output directory joined with an
    empty segment; with a positive [keep_depth] it returns a path for every
    remote path that has a directory segment. *)
Theorem mapper_no_rejection h remote_path :
  (keep_depth h = None ->
     _unique_local_path h remote_path
       = Ok (OsPath.join (output_dir h) (path_parts remote_path))
     /\ _unique_local_path h "" = Ok (OsPath.join (output_dir h) [""]))
  /\ (forall kd, keep_depth h = Some kd -> 1 <= kd ->
        (2 <= length (path_parts remote_path))%nat ->
        raises (_unique_local_path h remote_path) = false).
Proof.
  split.
  - intros Hkd. split; now apply unique_local_path_unset.
  - intros kd Hkd Hpos Hlen.
    rewrite (unique_local_path_set _ _ _ Hkd).
    pose proof (slice_dirs_not_nil (path_parts remote_path) kd Hpos Hlen) as Hs.
    destruct (PySlice.slice _ _ _) as [|d ds]; [congruence|].
    destruct (last (path_parts remote_path)) as [fn|] eqn:E; [reflexivity|].
    apply last_None in E. now apply path_parts_not_nil in E.
Qed.

(** C5, determinism.  The local path depends on the handler only through
    [output_dir] and [keep_depth]: two handlers that agree on both map
    every remote path alike, whatever else differs between them. *)
Theorem mapper_deterministic h1 h2 remote_path :
  output_dir h1 = output_dir h2 ->
  keep_depth h1 = keep_depth h2 ->
  _unique_local_path h1 remote_path = _unique_local_path h2 remote_path.
Proof.
  intros Hod Hkd. unfold _unique_local_path. now rewrite Hod, Hkd.
Qed.

(** C1, deduplication fallback.  The set of names already handed out is
    created anew inside every call, so the suffix of length 1 is never found
    in it: [/x/y/f.root] and [/z/y/f.root] both get the name [f.root] under
    the output directory, and the two local names are equal. *)
Theorem auto_unique_path_collides h filename1 filename2 :
  _auto_unique_path h "/x/y/f.root" filename1
    = OsPath.join (output_dir h) ["f.root"]
  /\ _auto_unique_path h "/z/y/f.root" filename2
    = _auto_unique_path h "/x/y/f.root" filename1.
Proof.
  rewrite !auto_unique_path_depth_one. split; reflexivity.
Qed.

End MapperClaims.

Lemma keep_depth_boundary_witness :
  _unique_local_path (with_keep_depth (Sim.handler "TGrid" None None) None)
    "/a/b/c/d.root" = Ok "grid/a/b/c/d.root"
  /\ _unique_local_path (with_keep_depth (Sim.handler "TGrid" None None) (Some 2))
    "/a/b/c/d.root" = Ok "grid/b/c/d.root"
  /\ _unique_local_path (with_keep_depth (Sim.handler "TGrid" None None) (Some 0))
    "/a/b/c/d.root" = Raise TypeError.
Proof.
  apply (keep_depth_boundary (Sim.handler "TGrid" None None)); reflexivity.
Defined.

Lemma filename_only_raises_witness :
  _unique_local_path (Sim.handler "TGrid" None None) "f.root" = Raise TypeError.
Proof.
  apply (filename_only_raises (Sim.handler "TGrid" None None) 5 "f.root");
    reflexivity.
Defined.

(** The claim that the mapper raises exactly on the empty remote path fails
    in both directions: with the default [keep_depth] the file name [f.root]
    raises, and with [keep_depth] unset the empty path does not. *)
Lemma mapper_raises_iff_empty_counterexample :
  ~ (forall h remote_path,
       raises (_unique_local_path h remote_path) = true <-> remote_path = "")
  /\ raises (_unique_local_path
               (with_keep_depth (Sim.handler "TGrid" None None) None) "") = false.
Proof.
  split; [|reflexivity].
  intros H.
  destruct (H (Sim.handler "TGrid" None None) "f.root") as [Hraise _].
  discriminate (Hraise eq_refl).
Qed.

Lemma mapper_no_rejection_witness :
  (_unique_local_path (with_keep_depth (Sim.handler "TGrid" None None) None)
     "/a/b/c/d.root" = Ok "grid/a/b/c/d.root"
   /\ _unique_local_path (with_keep_depth (Sim.handler "TGrid" None None) None)
        "" = Ok "grid/")
  /\ raises (_unique_local_path (Sim.handler "TGrid" None None) "/a/f.root")
     = false.
Proof.
  split.
  - apply (mapper_no_rejection
             (with_keep_depth (Sim.handler "TGrid" None None) None)
             "/a/b/c/d.root").
    reflexivity.
  - apply (mapper_no_rejection (Sim.handler "TGrid" None None) "/a/f.root")
      with (kd := 5); [reflexivity | lia | simpl; lia].
Defined.

Lemma mapper_deterministic_witness :
  _unique_local_path (Sim.handler "TGrid" None None) "/a/b/c/d.root"
  = _unique_local_path
      (Sim.handler "alienpy" (Some 0%nat) (Some [("/a", "*.root")]))
      "/a/b/c/d.root".
Proof.
  apply (mapper_deterministic (Sim.handler "TGrid" None None)
           (Sim.handler "alienpy" (Some 0%nat) (Some [("/a", "*.root")])));
    reflexivity.
Defined.

(** ** Frame rules for the monad *)

Section Steps.
Context {X : Type} (R : relation (World X)) `{!Frame R}.

Lemma steps_ret {A} (a : A) : steps R (ret a).
Proof. intros w. reflexivity. Qed.

Lemma steps_raise {A} (e : exn) : steps R (raise (A := A) e).
Proof. intros w. reflexivity. Qed.

Lemma steps_lift {A} (r : result A) : steps R (lift r).
Proof. intros w. reflexivity. Qed.

Lemma steps_get_self : steps R get_self.
Proof. intros w. reflexivity. Qed.

Lemma steps_get_conn : steps R get_conn.
Proof. intros w. reflexivity. Qed.

Lemma steps_observe {A} (f : X -> A) : steps R (observe f).
Proof. intros w. reflexivity. Qed.

Lemma steps_deref (l : loc) : steps R (deref l).
Proof. intros w. reflexivity. Qed.

Lemma steps_bind {A B} (m : M X A) (k : A -> M X B) :
  steps R m -> (forall a, steps R (k a)) -> steps R (bind m k).
Proof.
  intros Hm Hk w. unfold bind. specialize (Hm w).
  destruct (m w) as [[a|e] w']; simpl in *; [|exact Hm].
  etransitivity; [exact Hm | apply Hk].
Qed.

Lemma steps_try_except {A} (m h : M X A) :
  steps R m -> steps R h -> steps R (try_except m h).
Proof.
  intros Hm Hh w. unfold try_except. specialize (Hm w).
  destruct (m w) as [[a|e] w']; simpl in *; [exact Hm|].
  etransitivity; [exact Hm | apply Hh].
Qed.

Lemma steps_logger (r : LogRecord) : steps R (logger r).
Proof. intros w. apply frame_log. Qed.

Lemma steps_set_conn (g : PyGrid) : steps R (set_conn g).
Proof. intros w. apply (frame_conn w g). Qed.

Lemma steps_external {A} (f : X -> A * X) : steps R (external f).
Proof.
  intros w. unfold external. destruct (f (ext w)) as [a x']. apply frame_ext.
Qed.

Lemma steps_external_raising {A} (f : X -> result A * X) :
  steps R (external_raising f).
Proof.
  intros w. unfold external_raising. destruct (f (ext w)) as [a x'].
  apply frame_ext.
Qed.

Lemma steps_record_call allowed `{!FrameCalls R allowed} (c : Call) :
  allowed c = true -> steps R (record_call c).
Proof. intros Hc w. now apply frame_call. Qed.

Lemma steps_set_alien_session `{!FrameSession R} v :
  steps R (set_alien_session v).
Proof. intros w. apply frame_session. Qed.

Lemma steps_set_remote_files `{!FrameRemoteFiles R} v :
  steps R (set_remote_files v).
Proof. intros w. apply frame_remote_files. Qed.

Lemma steps_extend l `{!FrameExtend R l} v : steps R (extend l v).
Proof. intros w. apply frame_extend. Qed.

Lemma steps_new_list `{!FrameAlloc R} v : steps R (new_list v).
Proof. intros w. apply frame_alloc. Qed.

(** A process started on the side leaves the parent's global alone. *)
Lemma steps_in_process {A} (g : PyGrid) (m : M X A) :
  steps R m -> steps R (in_process g m).
Proof.
  intros Hm w. unfold in_process. specialize (Hm (with_conn g w)).
  destruct (m (with_conn g w)) as [[a|e] w']; simpl in *.
  all: etransitivity; [apply (frame_conn w g)|].
  all: etransitivity; [exact Hm | apply frame_conn].
Qed.

End Steps.

Ltac steps_step :=
  lazymatch goal with
  | |- steps _ (bind _ _) =>
      apply steps_bind; [typeclasses eauto | | intros ?; cbv beta]
  | |- steps _ (ret _) => apply steps_ret
  | |- steps _ (raise _) => apply steps_raise
  | |- steps _ (lift _) => apply steps_lift
  | |- steps _ get_self => apply steps_get_self
  | |- steps _ get_conn => apply steps_get_conn
  | |- steps _ (observe _) => apply steps_observe
  | |- steps _ (deref _) => apply steps_deref
  | |- steps _ (logger _) => apply steps_logger
  | |- steps _ (set_conn _) => apply steps_set_conn
  | |- steps _ (external _) => apply steps_external
  | |- steps _ (external_raising _) => apply steps_external_raising
  | |- steps _ (try_except _ _) => apply steps_try_except
  | |- steps _ (record_call _) =>
      first [ apply (steps_record_call _ is_query_call); reflexivity
            | apply (steps_record_call _ any_call); reflexivity ]
  | |- steps _ (set_alien_session _) => apply steps_set_alien_session
  | |- steps _ (set_remote_files _) => apply steps_set_remote_files
  | |- steps _ (extend _ _) => apply steps_extend
  | |- steps _ (new_list _) => apply steps_new_list
  | |- steps _ (in_process _ _) => apply steps_in_process
  | |- steps _ (match ?x with _ => _ end) => destruct x
  end.

Ltac steps_auto := repeat (steps_step; try typeclasses eauto).

Section MethodFrames.
Context {X : Type} (E : Externals X).
Context (R : relation (World X)) `{!Frame R}.

Lemma steps_ensure_alien_connection
    `{!FrameCalls R is_query_call, !FrameSession R} :
  steps R (_ensure_alien_connection E).
Proof. unfold _ensure_alien_connection. steps_auto. Qed.

Lemma steps_resolve_loop `{!FrameCalls R is_query_call} s found
    `{!FrameExtend R found} globs :
  steps R (resolve_loop E s found globs).
Proof.
  induction globs as [|[base pattern] rest IH]; cbn [resolve_loop].
  - steps_auto.
  - apply steps_bind; [typeclasses eauto | | intros _; exact IH]. steps_auto.
Qed.

(** What follows the allocation of [found_files] in
    [_resolve_remote_globs]. *)
Lemma steps_resolve_remote_globs
    `{!FrameCalls R is_query_call, !FrameSession R, !FrameAlloc R}
    `{!forall l, FrameExtend R l} :
  steps R (_resolve_remote_globs E).
Proof.
  unfold _resolve_remote_globs. steps_auto.
  - apply steps_ensure_alien_connection.
  - apply steps_resolve_loop; typeclasses eauto.
Qed.

Lemma steps_expand_remote_globs
    `{!FrameCalls R is_query_call, !FrameSession R, !FrameAlloc R}
    `{!FrameRemoteFiles R} `{!forall l, FrameExtend R l} :
  steps R (expand_remote_globs E).
Proof.
  unfold expand_remote_globs, current_files. steps_auto.
  apply steps_resolve_remote_globs.
Qed.

Lemma steps_tgrid_copy `{!FrameCalls R any_call} remote_file local_file :
  steps R (tgrid_copy E remote_file local_file).
Proof. unfold tgrid_copy. steps_auto. Qed.

Lemma steps_download_tgrid `{!FrameCalls R any_call} remote_file local_file :
  steps R (_download_tgrid E remote_file local_file).
Proof.
  unfold _download_tgrid. steps_auto; apply steps_tgrid_copy.
Qed.

Lemma steps_download_file `{!FrameCalls R any_call} job :
  steps R (_download_file E job).
Proof.
  unfold _download_file. steps_auto. apply steps_download_tgrid.
Qed.

Lemma steps_pool_map `{!FrameCalls R any_call} jobs i globals :
  steps R (pool_map E jobs i globals).
Proof.
  revert i globals.
  induction jobs as [|job rest IH]; intros i globals; cbn [pool_map].
  - steps_auto.
  - apply steps_bind; [typeclasses eauto | |].
    + apply steps_in_process, steps_download_file; typeclasses eauto.
    + intros out.
      apply steps_bind; [typeclasses eauto | apply IH | intros; steps_auto].
Qed.

Lemma steps_run_pool `{!FrameCalls R any_call} processes jobs :
  steps R (run_pool E processes jobs).
Proof. unfold run_pool. steps_auto. apply steps_pool_map. Qed.

Lemma steps_download_alien
    `{!FrameCalls R any_call, !FrameCalls R is_query_call, !FrameSession R}
    remote_files local_files :
  steps R (_download_alien E remote_files local_files).
Proof.
  unfold _download_alien. steps_auto. apply steps_ensure_alien_connection.
Qed.

Lemma steps_perform_download
    `{!FrameCalls R any_call, !FrameCalls R is_query_call, !FrameSession R}
    copy_list :
  steps R (perform_download E copy_list).
Proof.
  unfold perform_download. steps_auto.
  - apply steps_run_pool.
  - apply steps_download_alien.
Qed.

End MethodFrames.

(** ** The relations are frames *)

Section Instances.
Context {X : Type}.
Implicit Types (w : World X).

Global Instance keeps_files_frame : Frame (keeps_files (X := X)).
Proof.
  split.
  - split.
    + intros w. split; reflexivity.
    + intros w1 w2 w3 [H1 H2] [H3 H4]. split; congruence.
  - intros w r. split; reflexivity.
  - intros w x. split; reflexivity.
  - intros w g. split; reflexivity.
Qed.

Global Instance keeps_files_calls allowed :
  FrameCalls (keeps_files (X := X)) allowed.
Proof. intros w c _. split; reflexivity. Qed.

Global Instance keeps_files_session : FrameSession (keeps_files (X := X)).
Proof. intros w v. split; reflexivity. Qed.

Global Instance only_query_calls_frame : Frame (only_query_calls (X := X)).
Proof.
  assert (Hrefl : forall w w', calls w' = calls w -> only_query_calls w w').
  { intros w w' H. exists []. rewrite app_nil_r. split; [exact H|reflexivity]. }
  split.
  - split.
    + intros w. now apply Hrefl.
    + intros w1 w2 w3 (cs & H1 & H2) (cs' & H3 & H4).
      exists (cs ++ cs'). rewrite H3, H1, app_assoc. split; [reflexivity|].
      rewrite forallb_app, H2, H4. reflexivity.
  - intros w r. now apply Hrefl.
  - intros w x. now apply Hrefl.
  - intros w g. now apply Hrefl.
Qed.

Global Instance only_query_calls_calls :
  FrameCalls (only_query_calls (X := X)) is_query_call.
Proof.
  intros w c Hc. exists [c]. split; [reflexivity|].
  simpl. now rewrite Hc.
Qed.

Lemma only_query_calls_same_calls w w' :
  calls w' = calls w -> only_query_calls w w'.
Proof.
  intros H. exists []. rewrite app_nil_r. split; [exact H|reflexivity].
Qed.

Global Instance only_query_calls_session :
  FrameSession (only_query_calls (X := X)).
Proof. intros w v. now apply only_query_calls_same_calls. Qed.

Global Instance only_query_calls_remote_files :
  FrameRemoteFiles (only_query_calls (X := X)).
Proof. intros w v. now apply only_query_calls_same_calls. Qed.

Global Instance only_query_calls_alloc :
  FrameAlloc (only_query_calls (X := X)).
Proof. intros w v. now apply only_query_calls_same_calls. Qed.

Global Instance only_query_calls_extend l :
  FrameExtend (only_query_calls (X := X)) l.
Proof. intros w v. now apply only_query_calls_same_calls. Qed.

Global Instance touches_only_frame found :
  Frame (touches_only (X := X) found).
Proof.
  split.
  - split.
    + intros w. split; reflexivity.
    + intros w1 w2 w3 [H1 H2] [H3 H4]. split; [|congruence].
      intros l Hl. now rewrite H3, H1.
  - intros w r. split; reflexivity.
  - intros w x. split; reflexivity.
  - intros w g. split; reflexivity.
Qed.

Global Instance touches_only_calls found allowed :
  FrameCalls (touches_only (X := X) found) allowed.
Proof. intros w c _. split; reflexivity. Qed.

Global Instance touches_only_session found :
  FrameSession (touches_only (X := X) found).
Proof. intros w v. split; reflexivity. Qed.

Global Instance touches_only_extend found :
  FrameExtend (touches_only (X := X) found) found.
Proof.
  intros w v. split; [|reflexivity].
  intros l Hl. simpl. apply list_lookup_alter_ne. congruence.
Qed.

Global Instance keeps_handler_frame : Frame (keeps_handler (X := X)).
Proof.
  assert (Hrefl : forall w w',
             self w' = self w -> calls w' = calls w -> keeps_handler w w').
  { intros w w' H1 H2. split; [exact H1|]. exists []. now rewrite app_nil_r. }
  split.
  - split.
    + intros w. now apply Hrefl.
    + intros w1 w2 w3 (H1 & cs & H2) (H3 & cs' & H4). split; [congruence|].
      exists (cs ++ cs'). now rewrite H4, H2, app_assoc.
  - intros w r. now apply Hrefl.
  - intros w x. now apply Hrefl.
  - intros w g. now apply Hrefl.
Qed.

Global Instance keeps_handler_calls allowed :
  FrameCalls (keeps_handler (X := X)) allowed.
Proof. intros w c _. split; [reflexivity|]. now exists [c]. Qed.

End Instances.

(** ** The TGrid connection cache *)

Section ConnectionCache.
Context {X : Type} (E : Externals X).
Implicit Types (w : World X) (g : PyGrid).

Lemma download_tgrid_cached w remote_file local_file :
  is_None (_worker_grid_connection w) = false ->
  _download_tgrid E remote_file local_file w
  = tgrid_copy E remote_file local_file w.
Proof.
  intros Hc. unfold _download_tgrid, bind, get_conn. now rewrite Hc.
Qed.

Lemma tgrid_copy_calls w remote_file local_file :
  calls (snd (tgrid_copy E remote_file local_file w))
  = calls w ++ [CallCp (add_prefix "alien://" remote_file)
                  (add_prefix "file:" local_file)].
Proof.
  unfold tgrid_copy, bind, logger, record_call, external, ret. simpl.
  destruct (TFile_Cp E _ _ (ext w)) as [[|] x']; reflexivity.
Qed.

(** When [ROOT.gGrid] is [None] after the connection attempt, nothing is
    cached and the next call connects again. *)
Lemma download_tgrid_none_not_cached w remote_file local_file :
  _worker_grid_connection w = PyNone ->
  gGrid E (TGrid_Connect E (ext w)) = PyNone ->
  _download_tgrid E remote_file local_file w
  = (Ok None,
     mkWorld (self w) (store w) PyNone (TGrid_Connect E (ext w))
       (log w ++ [LogTGridFailed]) (calls w ++ [CallTGridConnect])).
Proof.
  intros Hc Hg.
  unfold _download_tgrid, bind, get_conn, record_call, external, observe,
    set_conn, logger, ret.
  rewrite Hc. simpl. rewrite Hg. reflexivity.
Qed.

(** C8, no caching of a failed handle.  The code stores whatever
    [ROOT.gGrid] holds before it looks at it.  When the handle left by the
    connection attempt is not [None] but is null or reports not connected,
    the call returns [None] and logs the failure, yet the module global now
    holds that handle; the next call in the process finds the global set,
    makes no connection attempt and goes straight to [TFile.Cp]. *)
Theorem failed_handle_stays_cached w g remote_file local_file
    remote_file' local_file' :
  _worker_grid_connection w = PyNone ->
  gGrid E (TGrid_Connect E (ext w)) = g ->
  is_None g = false ->
  failed_handle g = true ->
  let w1 :=
    mkWorld (self w) (store w) g (TGrid_Connect E (ext w))
      (log w ++ [LogTGridFailed]) (calls w ++ [CallTGridConnect]) in
  _download_tgrid E remote_file local_file w = (Ok None, w1)
  /\ _worker_grid_connection w1 <> PyNone
  /\ _download_tgrid E remote_file' local_file' w1
     = tgrid_copy E remote_file' local_file' w1
  /\ calls (snd (_download_tgrid E remote_file' local_file' w1))
     = calls w ++ [CallTGridConnect;
                   CallCp (add_prefix "alien://" remote_file')
                     (add_prefix "file:" local_file')].
Proof.
  intros Hc Hg Hnone Hfail w1.
  assert (Hfirst : _download_tgrid E remote_file local_file w = (Ok None, w1)).
  { unfold _download_tgrid, bind, get_conn, record_call, external, observe,
      set_conn, logger, ret.
    rewrite Hc. simpl. rewrite Hg, Hfail. reflexivity. }
  assert (Hsecond : _download_tgrid E remote_file' local_file' w1
                    = tgrid_copy E remote_file' local_file' w1)
    by (apply download_tgrid_cached; exact Hnone).
  repeat split.
  - exact Hfirst.
  - simpl. intros ->. discriminate.
  - exact Hsecond.
  - rewrite Hsecond, tgrid_copy_calls. simpl. now rewrite <- app_assoc.
Qed.

End ConnectionCache.

Lemma failed_handle_stays_cached_witness :
  let w := Sim.world (Sim.handler "TGrid" None None) [] Sim.grid_down in
  let w1 := snd (_download_tgrid Sim.externals "/a/b/f.root" "grid/a/b/f.root" w) in
  fst (_download_tgrid Sim.externals "/a/b/f.root" "grid/a/b/f.root" w) = Ok None
  /\ _worker_grid_connection w1 = Handle false
  /\ calls (snd (_download_tgrid Sim.externals "/a/c/g.root" "grid/a/c/g.root" w1))
     = [CallTGridConnect; CallCp "alien:///a/c/g.root" "file:grid/a/c/g.root"].
Proof.
  intros w w1.
  destruct (failed_handle_stays_cached Sim.externals w (Handle false)
              "/a/b/f.root" "grid/a/b/f.root" "/a/c/g.root" "grid/a/c/g.root")
    as (H1 & _ & _ & H4); try reflexivity.
  unfold w1. rewrite H1. split; [reflexivity|]. split; [reflexivity|].
  exact H4.
Defined.

(** ** The batched backend *)

Section BatchBackend.
Context {X : Type} (E : Externals X).
Implicit Types (w : World X).

(** What [_download_alien] returns, by what the session and the one call of
    the copy client do, and the number that [download] then reports for the
    alienpy backend. *)
Lemma download_alien_cases w (remote_files local_files : list string)
    (copy_list : list (string * string)) :
  match _ensure_alien_connection E w with
  | (Ok None, w1) =>
      _download_alien E remote_files local_files w = (Ok 0, w1)
  | (Ok (Some s), w1) =>
      match DO_XrootdCp E s (alien_args (self w1))
              (map (add_prefix "alien://") remote_files)
              (map (add_prefix "file:") local_files) (ext w1) with
      | (Raise _, _) =>
          fst (_download_alien E remote_files local_files w) = Ok 0
      | (Ok _, x') =>
          _download_alien E remote_files local_files w
          = (Ok (Z.of_nat (length remote_files)),
             mkWorld (self w1) (store w1) (_worker_grid_connection w1) x'
               (log w1 ++ [LogAlienStart (length remote_files);
                           LogAlienFinished])
               (calls w1
                ++ [CallXrootdCp (alien_args (self w1))
                      (map (add_prefix "alien://") remote_files)
                      (map (add_prefix "file:") local_files)]))
      end
  | (Raise e, w1) =>
      _download_alien E remote_files local_files w = (Raise e, w1)
  end
  /\ (backend (self w) = "alienpy" ->
      perform_download E copy_list w =
      match _download_alien E (map fst copy_list) (map snd copy_list) w with
      | (Ok n_ok, w') =>
          (Ok RetNone,
           mkWorld (self w') (store w') (_worker_grid_connection w') (ext w')
             (log w' ++ [LogDone n_ok (length copy_list)]) (calls w'))
      | (Raise e, w') => (Raise e, w')
      end).
Proof.
  split.
  - unfold _download_alien, bind.
    destruct (_ensure_alien_connection E w) as [[[s|]|e] w1]; try reflexivity.
    unfold try_except, bind, logger, get_self, record_call,
      external_raising, ret. simpl.
    destruct (DO_XrootdCp E s _ _ _ (ext w1)) as [[u|e] x']; simpl;
      rewrite <- ?app_assoc; reflexivity.
  - intros Hb. unfold perform_download, bind, get_self. rewrite Hb. simpl.
    destruct (_download_alien E _ _ w) as [[n|e] w']; reflexivity.
Qed.

(** C9, all or nothing.  The result of the one call of the copy client is
    never looked at: with a session, whenever that call returns, whatever
    exit [status] it returns, that of a failed copy included,
    [_download_alien] logs that the download finished successfully and returns the length of
    the batch, and [download] reports every file of the batch as
    downloaded.  The batch counts as failed only when the call raises. *)
Theorem batch_ignores_exit_status w w1 (s : Session) (status : Z) x'
    (remote_files local_files : list string) :
  _ensure_alien_connection E w = (Ok (Some s), w1) ->
  DO_XrootdCp E s (alien_args (self w1))
    (map (add_prefix "alien://") remote_files)
    (map (add_prefix "file:") local_files) (ext w1) = (Ok status, x') ->
  fst (_download_alien E remote_files local_files w)
  = Ok (Z.of_nat (length remote_files))
  /\ last (log (snd (_download_alien E remote_files local_files w)))
     = Some LogAlienFinished
  /\ ext (snd (_download_alien E remote_files local_files w)) = x'
  /\ forall copy_list : list (string * string),
       backend (self w) = "alienpy" ->
       remote_files = map fst copy_list ->
       local_files = map snd copy_list ->
       fst (perform_download E copy_list w) = Ok RetNone
       /\ last (log (snd (perform_download E copy_list w)))
          = Some (LogDone (Z.of_nat (length copy_list)) (length copy_list)).
Proof.
  intros Hsession Hcall.
  assert (Hrun : _download_alien E remote_files local_files w
                 = (Ok (Z.of_nat (length remote_files)),
                    mkWorld (self w1) (store w1) (_worker_grid_connection w1)
                      x'
                      (log w1 ++ [LogAlienStart (length remote_files);
                                  LogAlienFinished])
                      (calls w1
                       ++ [CallXrootdCp (alien_args (self w1))
                             (map (add_prefix "alien://") remote_files)
                             (map (add_prefix "file:") local_files)]))).
  { pose proof (download_alien_cases w remote_files local_files []) as [H _].
    rewrite Hsession, Hcall in H. exact H. }
  rewrite Hrun. cbn [fst snd log ext].
  split; [reflexivity|]. split.
  { change [LogAlienStart (length remote_files); LogAlienFinished]
      with ([LogAlienStart (length remote_files)] ++ [LogAlienFinished]).
    rewrite app_assoc. apply last_snoc. }
  split; [reflexivity|].
  intros copy_list Hb -> ->.
  pose proof (download_alien_cases w (map fst copy_list) (map snd copy_list)
                copy_list) as [_ H].
  rewrite (H Hb), Hrun. cbn [fst snd log].
  rewrite length_map. split; [reflexivity | apply last_snoc].
Qed.

End BatchBackend.

Lemma batch_ignores_exit_status_witness :
  let w := Sim.world (Sim.handler "alienpy" None None) [] (Sim.grid_up []) in
  let jobs := [("/a/b/f.root", "grid/a/b/f.root");
               ("/a/c/g.root", "grid/a/c/g.root")] in
  fst (_download_alien sim_failed_copy (map fst jobs) (map snd jobs) w) = Ok 2
  /\ Sim.disk (ext (snd (_download_alien sim_failed_copy (map fst jobs)
                           (map snd jobs) w))) = []
  /\ last (log (snd (perform_download sim_failed_copy jobs w)))
     = Some (LogDone 2 2).
Proof.
  intros w jobs.
  destruct (batch_ignores_exit_status sim_failed_copy w
              (snd (_ensure_alien_connection sim_failed_copy w)) 7%nat 1
              (Sim.grid_up []) (map fst jobs) (map snd jobs))
    as (H1 & _ & H3 & H4).
  - vm_compute. reflexivity.
  - vm_compute. reflexivity.
  - destruct (H4 jobs) as [_ H5]; try (vm_compute; reflexivity).
    split; [exact H1|]. split; [rewrite H3; reflexivity | exact H5].
Defined.

(** ** Nothing to download *)

Section EmptyInput.
Context {X : Type} (E : Externals X).
Implicit Types (w : World X).

Lemma current_files_pure w : snd (current_files w) = w.
Proof.
  unfold current_files, bind, get_self, deref, ret.
  destruct (remote_files (self w)); reflexivity.
Qed.

Lemma current_files_ok w :
  current_files w
  = (Ok match remote_files (self w) with
        | None => []
        | Some l => default [] (store w !! l)
        end, w).
Proof.
  unfold current_files, bind, get_self, deref, ret.
  destruct (remote_files (self w)); reflexivity.
Qed.

(** C6, as amended.  When the file list is empty once the globs are
    expanded, [download] logs the warning [LogNoRemoteFiles] and returns
    [None]; it does not raise, and beyond the calls of the query client
    made while expanding the globs it calls nothing: no pool is started and
    no copy client is invoked. *)
Theorem empty_input_returns_none w w1 :
  expand_remote_globs E w = (Ok tt, w1) ->
  fst (current_files w1) = Ok [] ->
  download E w = (Ok RetNone, after w1 [LogNoRemoteFiles] [])
  /\ level_of LogNoRemoteFiles = WARNING
  /\ exists cs, calls (after w1 [LogNoRemoteFiles] []) = calls w ++ cs
                /\ forallb is_query_call cs = true.
Proof.
  intros Hexp Hfiles. split; [|split].
  - unfold download. unfold bind at 1. rewrite Hexp.
    unfold bind at 1. rewrite current_files_ok in *. simpl in Hfiles.
    injection Hfiles as ->. simpl.
    unfold bind, logger, ret, after. simpl. now rewrite app_nil_r.
  - reflexivity.
  - pose proof (steps_expand_remote_globs E only_query_calls w) as Hq.
    rewrite Hexp in Hq. destruct Hq as (cs & Hcs & Hall).
    exists cs. simpl. rewrite app_nil_r. auto.
Qed.

End EmptyInput.

Lemma empty_input_returns_none_witness :
  let w := Sim.world (Sim.handler "TGrid" (Some 0%nat) (Some [])) [[]]
             (Sim.grid_up []) in
  fst (download Sim.externals w) = Ok RetNone
  /\ log (snd (download Sim.externals w)) = [LogNoRemoteFiles]
  /\ calls (snd (download Sim.externals w)) = [].
Proof.
  intros w.
  destruct (empty_input_returns_none Sim.externals w
              (snd (expand_remote_globs Sim.externals w)))
    as (H & _ & _); [reflexivity | reflexivity |].
  rewrite H. repeat split.
Defined.

(** [download([], [])] does not return the pair [(0, 0)]: no [return] of
    [download] carries a value. *)
Lemma empty_input_pair_counterexample :
  fst (download Sim.externals
         (Sim.world (Sim.handler "TGrid" (Some 0%nat) (Some [])) [[]]
            (Sim.grid_up [])))
  <> Ok (RetPair 0 0).
Proof. discriminate. Qed.

(** No [return] of [download] carries a value: whenever it returns, it
    returns [None]. *)
Lemma download_returns_none {X} (E : Externals X) (w : World X) r :
  fst (download E w) = Ok r -> r = RetNone.
Proof.
  unfold download, perform_download, bind, logger, ret, lift, get_self.
  destruct (expand_remote_globs E w) as [[[]|e] w1]; [|discriminate].
  destruct (current_files w1) as [[files|e] w2]; [|discriminate].
  destruct (negb (nonempty files)); [now intros [= <-]|].
  destruct (build_copy_list (self w2) files) as [jobs|e]; [|discriminate].
  cbn [self].
  destruct (String.eqb (backend (self w2)) "TGrid").
  - destruct (alien_session (self w2)); unfold set_alien_session.
    all: destruct (run_pool E _ jobs _) as [[results|e] w4]; [|discriminate].
    all: now intros [= <-].
  - destruct (String.eqb (backend (self w2)) "alienpy").
    + destruct (_download_alien E _ _ _) as [[n|e] w3]; [|discriminate].
      now intros [= <-].
    + now intros [= <-].
Qed.

(** ** Files that are already there *)

Section LocalPathShape.
Implicit Types (h : GridHandler) (p path b : string).

Lemma join_step_keeps_slash path b :
  PyStr.has_slash path = true ->
  PyStr.has_slash (OsPath.join_step path b) = true.
Proof.
  intros Hp. unfold OsPath.join_step.
  destruct (PyStr.startswith "/" b) eqn:Hb.
  - now apply startswith_slash_has_slash.
  - destruct (_ || _); rewrite !has_slash_append, Hp; reflexivity.
Qed.

Lemma join_step_makes_slash path b :
  PyStr.is_empty path = false ->
  PyStr.has_slash (OsPath.join_step path b) = true.
Proof.
  intros Hp. unfold OsPath.join_step.
  destruct (PyStr.startswith "/" b) eqn:Hb.
  - now apply startswith_slash_has_slash.
  - rewrite Hp. simpl.
    destruct (PyStr.ends_with_slash path) eqn:He; rewrite !has_slash_append.
    + now rewrite (ends_with_slash_has_slash _ He).
    + simpl. apply orb_true_r.
Qed.

Lemma join_keeps_slash path (bs : list string) :
  PyStr.has_slash path = true -> PyStr.has_slash (OsPath.join path bs) = true.
Proof.
  unfold OsPath.join. revert path.
  induction bs as [|b bs IH]; intros path Hp; simpl; [exact Hp|].
  apply IH. now apply join_step_keeps_slash.
Qed.

Lemma join_has_slash path b (bs : list string) :
  PyStr.is_empty path = false ->
  PyStr.has_slash (OsPath.join path (b :: bs)) = true.
Proof.
  intros Hp. change (OsPath.join path (b :: bs))
    with (OsPath.join (OsPath.join_step path b) bs).
  apply join_keeps_slash. now apply join_step_makes_slash.
Qed.

Lemma upto_last_slash_not_empty p :
  PyStr.has_slash p = true -> PyStr.is_empty (PyStr.upto_last_slash p) = false.
Proof.
  destruct p as [|c p]; simpl; [discriminate|].
  destruct (PyStr.has_slash p); [reflexivity|].
  rewrite orb_false_r. now intros ->.
Qed.

Lemma rstrip_empty_all_slashes p :
  PyStr.rstrip p = "" -> PyStr.all_slashes p = true.
Proof.
  induction p as [|c p IH]; simpl; [reflexivity|].
  destruct (PyStr.is_slash c); simpl; [|discriminate].
  destruct (PyStr.rstrip p); simpl; [|discriminate].
  intros _. now apply IH.
Qed.

(** A path with a slash in it has a parent directory to create. *)
Lemma dirname_not_empty p :
  PyStr.has_slash p = true -> OsPath.dirname p <> "".
Proof.
  intros Hp. unfold OsPath.dirname.
  pose proof (upto_last_slash_not_empty _ Hp) as Hhead.
  destruct (PyStr.all_slashes (PyStr.upto_last_slash p)) eqn:Hall;
    rewrite Hhead; simpl.
  - intros Heq. now rewrite Heq in Hhead.
  - intros Heq. apply rstrip_empty_all_slashes in Heq. congruence.
Qed.

(** Every local path the mapper produces lies below a directory, provided
    the output directory is not the empty string. *)
Lemma unique_local_path_has_parent h remote_path p :
  output_dir h <> "" ->
  _unique_local_path h remote_path = Ok p ->
  OsPath.dirname p <> "".
Proof.
  intros Hod Hp. apply dirname_not_empty.
  assert (Hne : PyStr.is_empty (output_dir h) = false).
  { destruct (output_dir h); [congruence | reflexivity]. }
  destruct (keep_depth h) as [kd|] eqn:Hkd.
  - rewrite (unique_local_path_set _ _ _ Hkd) in Hp.
    destruct (PySlice.slice _ _ _) as [|d ds]; [discriminate|].
    destruct (last _) as [fn|]; [|discriminate].
    injection Hp as <-.
    exact (join_has_slash (output_dir h) (OsPath.join d ds) [fn] Hne).
  - rewrite (unique_local_path_unset _ _ Hkd) in Hp. injection Hp as <-.
    destruct (path_parts remote_path) as [|b bs] eqn:Hparts.
    + now apply path_parts_not_nil in Hparts.
    + exact (join_has_slash (output_dir h) b bs Hne).
Qed.

Lemma build_copy_list_parents h files jobs :
  output_dir h <> "" ->
  build_copy_list h files = Ok jobs ->
  Forall (fun job => OsPath.dirname (snd job) <> "") jobs.
Proof.
  intros Hod. revert jobs.
  induction files as [|f files IH]; intros jobs Hjobs; simpl in Hjobs.
  - injection Hjobs as <-. constructor.
  - destruct (_unique_local_path h f) as [p|e] eqn:Hp; [|discriminate].
    simpl in Hjobs.
    destruct (build_copy_list h files) as [tl|e]; [|discriminate].
    injection Hjobs as <-. constructor.
    + simpl. eapply unique_local_path_has_parent; eassumption.
    + now apply IH.
Qed.

Lemma build_copy_list_length h files jobs :
  build_copy_list h files = Ok jobs -> length jobs = length files.
Proof.
  revert jobs.
  induction files as [|f files IH]; intros jobs Hjobs; simpl in Hjobs.
  - now injection Hjobs as <-.
  - destruct (_unique_local_path h f) as [p|e]; [|discriminate].
    simpl in Hjobs.
    destruct (build_copy_list h files) as [tl|e]; [|discriminate].
    injection Hjobs as <-. simpl. now rewrite (IH tl).
Qed.

End LocalPathShape.

Section SkipExisting.
Context {X : Type} (E : Externals X).
Implicit Types (w : World X) (job : string * string).

Lemma download_file_skips w remote_file local_file :
  makedirs_tolerates_existing E ->
  os_path_exists E local_file (ext w) = true ->
  OsPath.dirname local_file <> "" ->
  _download_file E (remote_file, local_file) w
  = (Ok (Some local_file),
     after w [LogSkipExisting local_file]
       [CallMakedirs (OsPath.dirname local_file)]).
Proof.
  intros Hfs Hthere Hparent.
  unfold _download_file, bind, record_call, external_raising, observe,
    logger, ret. simpl.
  rewrite (Hfs _ _ Hthere Hparent). simpl. rewrite Hthere. reflexivity.
Qed.

Lemma after_after w rs cs rs' cs' :
  after (after w rs cs) rs' cs' = after w (rs ++ rs') (cs ++ cs').
Proof. unfold after. simpl. now rewrite <- !app_assoc. Qed.

Lemma after_nil w : after w [] [] = w.
Proof. destruct w. unfold after. simpl. now rewrite !app_nil_r. Qed.

(** A pool whose jobs all find their file on disk: every result is the
    local path, and the workers make no call but [os.makedirs]. *)
Lemma pool_map_all_skipped jobs : forall i globals w,
  makedirs_tolerates_existing E ->
  Forall (fun job => os_path_exists E (snd job) (ext w) = true) jobs ->
  Forall (fun job => OsPath.dirname (snd job) <> "") jobs ->
  pool_map E jobs i globals w
  = (Ok (map (fun job => Some (snd job)) jobs),
     after w (map (fun job => LogSkipExisting (snd job)) jobs)
       (map (fun job => CallMakedirs (OsPath.dirname (snd job))) jobs)).
Proof.
  induction jobs as [|[remote_file local_file] rest IH];
    intros i globals w Hfs Hthere Hparent.
  - simpl. unfold ret. now rewrite after_nil.
  - apply Forall_cons in Hthere as [Hthere1 Hthere].
    apply Forall_cons in Hparent as [Hparent1 Hparent].
    cbn [pool_map]. unfold bind at 1. unfold in_process.
    rewrite (download_file_skips (with_conn (globals (pool_assign E i)) w)
               remote_file local_file Hfs Hthere1 Hparent1).
    cbn [snd fst]. unfold bind at 1.
    rewrite IH; [|exact Hfs|exact Hthere|exact Hparent].
    unfold ret. cbn [map fst snd]. f_equal.
    unfold after, with_conn. simpl. now rewrite <- !app_assoc.
Qed.

Lemma count_all_skipped (jobs : list (string * string)) :
  length (filter is_Some (map (fun job => Some (snd job)) jobs))
  = length jobs.
Proof.
  induction jobs as [|job rest IH]; [reflexivity|].
  cbn [map]. rewrite filter_cons_True by eauto. simpl. now rewrite IH.
Qed.

(** C7, skipping what is already there.  Under the filesystem assumption
    [makedirs_tolerates_existing]: a job whose local file exists returns
    that path, logs the skip and calls nothing but [os.makedirs], so it
    neither connects nor invokes [TFile.Cp]; and a TGrid run of [download]
    at whose start the local target of every job is on disk skips every
    job, reports all of them as downloaded and leaves the outside world as
    it found it. *)
Theorem existing_files_are_skipped w :
  makedirs_tolerates_existing E ->
  (forall remote_file local_file,
      os_path_exists E local_file (ext w) = true ->
      OsPath.dirname local_file <> "" ->
      _download_file E (remote_file, local_file) w
      = (Ok (Some local_file),
         after w [LogSkipExisting local_file]
           [CallMakedirs (OsPath.dirname local_file)]))
  /\ (forall w1 files jobs,
      expand_remote_globs E w = (Ok tt, w1) ->
      fst (current_files w1) = Ok files ->
      files <> [] ->
      build_copy_list (self w1) files = Ok jobs ->
      backend (self w1) = "TGrid" ->
      1 <= num_workers (self w1) ->
      output_dir (self w1) <> "" ->
      Forall (fun job => os_path_exists E (snd job) (ext w1) = true) jobs ->
      let pickled :=
        match alien_session (self w1) with
        | Bound _ => with_alien_session (self w1) Deleted
        | Deleted => self w1
        end in
      download E w
      = (Ok RetNone,
         mkWorld pickled (store w1) (_worker_grid_connection w1) (ext w1)
           (log w1 ++ [LogStarting "TGrid" (length jobs)]
              ++ map (fun job => LogSkipExisting (snd job)) jobs
              ++ [LogDone (Z.of_nat (length jobs)) (length jobs)])
           (calls w1 ++ [CallPool (num_workers (self w1)) pickled jobs]
              ++ map (fun job => CallMakedirs (OsPath.dirname (snd job)))
                   jobs))).
Proof.
  intros Hfs. split.
  - intros remote_file local_file. now apply download_file_skips.
  - intros w1 files jobs Hexp Hfiles Hne Hjobs Hbackend Hworkers Hod Hthere
      pickled.
    pose proof (build_copy_list_parents _ _ _ Hod Hjobs) as Hparent.
    unfold download. unfold bind at 1. rewrite Hexp.
    unfold bind at 1. rewrite current_files_ok in *. simpl in Hfiles.
    injection Hfiles as Hfiles. rewrite Hfiles.
    destruct files as [|f files']; [congruence|]. cbn [nonempty negb].
    unfold bind at 1. unfold get_self at 1.
    unfold bind at 1. unfold lift at 1. rewrite Hjobs.
    unfold bind at 1. unfold logger at 1.
    unfold perform_download. unfold bind at 1. unfold get_self at 1.
    cbn [self]. rewrite Hbackend.
    change (String.eqb "TGrid" "TGrid") with true. cbv iota.
    assert (Hlt : (num_workers (self w1) <? 1) = false)
      by (apply Z.ltb_ge; lia).
    unfold run_pool. rewrite Hlt.
    destruct (alien_session (self w1)) as [|v] eqn:Hsession.
    + unfold bind, ret, get_self, record_call, get_conn, logger. simpl.
      rewrite pool_map_all_skipped; [|exact Hfs|exact Hthere|exact Hparent].
      simpl. rewrite count_all_skipped.
      unfold after. simpl. rewrite <- !app_assoc. reflexivity.
    + unfold bind, ret, get_self, record_call, get_conn, logger,
        set_alien_session. simpl.
      rewrite pool_map_all_skipped; [|exact Hfs|exact Hthere|exact Hparent].
      simpl. rewrite count_all_skipped.
      unfold after. simpl. rewrite <- !app_assoc. reflexivity.
Qed.

End SkipExisting.

Lemma sim_makedirs_tolerates_existing :
  makedirs_tolerates_existing Sim.externals.
Proof.
  intros x p _ Hparent. simpl.
  destruct (OsPath.dirname p); [congruence | reflexivity].
Qed.

Lemma existing_files_are_skipped_witness :
  let w := Sim.world (Sim.handler "TGrid" (Some 0%nat) None)
             [["/a/b/f.root"; "/a/c/g.root"]]
             (Sim.grid_up ["grid/a/b/f.root"; "grid/a/c/g.root"]) in
  fst (_download_file Sim.externals ("/a/b/f.root", "grid/a/b/f.root") w)
    = Ok (Some "grid/a/b/f.root")
  /\ fst (download Sim.externals w) = Ok RetNone
  /\ log (snd (download Sim.externals w))
     = [LogStarting "TGrid" 2; LogSkipExisting "grid/a/b/f.root";
        LogSkipExisting "grid/a/c/g.root"; LogDone 2 2]
  /\ ext (snd (download Sim.externals w)) = ext w.
Proof.
  intros w.
  destruct (existing_files_are_skipped Sim.externals w
              sim_makedirs_tolerates_existing) as [Hjob Hrun].
  split.
  - rewrite (Hjob "/a/b/f.root" "grid/a/b/f.root"); [reflexivity | | ].
    + reflexivity.
    + discriminate.
  - rewrite (Hrun (snd (expand_remote_globs Sim.externals w))
               ["/a/b/f.root"; "/a/c/g.root"]
               [("/a/b/f.root", "grid/a/b/f.root");
                ("/a/c/g.root", "grid/a/c/g.root")]).
    + repeat split.
    + reflexivity.
    + reflexivity.
    + discriminate.
    + reflexivity.
    + reflexivity.
    + simpl. lia.
    + discriminate.
    + repeat constructor.
Defined.

(** ** What [download] does to the handler *)

Section Mutation.
Context {X : Type} (E : Externals X).
Implicit Types (w : World X).

Lemma touches_only_alloc w v :
  touches_only (length (store w)) w
    (mkWorld (self w) (store w ++ [v]) (_worker_grid_connection w)
       (ext w) (log w) (calls w)).
Proof.
  split; [|reflexivity]. intros l Hl. simpl.
  destruct (decide (l < length (store w))%nat) as [Hlt|Hge].
  - now apply lookup_app_l.
  - rewrite !lookup_ge_None_2; [reflexivity | lia |].
    rewrite length_app. simpl. lia.
Qed.

(** [_resolve_remote_globs] returns the list object it has allocated and
    changes no other list. *)
Lemma resolve_remote_globs_spec w found w1 :
  _resolve_remote_globs E w = (Ok found, w1) ->
  found = length (store w) /\ touches_only found w w1.
Proof.
  unfold _resolve_remote_globs. unfold bind at 1. unfold new_list at 1.
  cbv beta iota.
  set (w0 := mkWorld (self w) (store w ++ [[]]) (_worker_grid_connection w)
               (ext w) (log w) (calls w)).
  intros Hres.
  assert (Hfound : found = length (store w)).
  { revert Hres. unfold bind, get_self, ret, logger.
    destruct (remote_files_glob (self w0)) as [[|g gs]|];
      try (intros [= <- _]; reflexivity).
    destruct (negb (alien E)); try (intros [= <- _]; reflexivity).
    destruct (_ensure_alien_connection E w0) as [[[s|]|e] w'];
      try (intros [= <- _]; reflexivity); try discriminate.
    destruct (resolve_loop E s _ _ _) as [[[]|e] w''];
      try (intros [= <- _]; reflexivity); try discriminate. }
  subst found. split; [reflexivity|].
  - etransitivity; [apply (touches_only_alloc w [])|].
    fold w0. apply (f_equal snd) in Hres. cbn [snd] in Hres.
    rewrite <- Hres. clear Hres. generalize w0.
    match goal with
    | |- forall w', _ w' (snd (?m w')) =>
        change (steps (touches_only (length (store w))) m)
    end.
    steps_auto.
    + apply steps_ensure_alien_connection; typeclasses eauto.
    + apply steps_resolve_loop; typeclasses eauto.
Qed.

Lemma download_after_expand (R : relation (World X))
    `{!Frame R, !FrameCalls R any_call, !FrameCalls R is_query_call,
      !FrameSession R} w :
  R (snd (expand_remote_globs E w)) (snd (download E w)).
Proof.
  unfold download. unfold bind at 1.
  destruct (expand_remote_globs E w) as [[[]|e] w2]; cbn [snd];
    [|reflexivity].
  generalize w2.
  match goal with
  | |- forall w', _ w' (snd (?m w')) => change (steps R m)
  end.
  unfold current_files. steps_auto.
  apply steps_perform_download; typeclasses eauto.
Qed.

(** A configured list that is not empty is extended in place. *)
Lemma expand_extends_in_place w found w1 fs l orig :
  _resolve_remote_globs E w = (Ok found, w1) ->
  store w1 !! found = Some fs -> fs <> [] ->
  remote_files (self w) = Some l -> store w !! l = Some orig -> orig <> [] ->
  expand_remote_globs E w
  = (Ok tt,
     mkWorld (self w1) (alter (fun old => old ++ fs) l (store w1))
       (_worker_grid_connection w1) (ext w1)
       (log w1 ++ [LogFoundViaGlob (length fs)]) (calls w1))
  /\ store w1 !! l = Some orig.
Proof.
  intros Hres Hfs Hne Hl Horig Hone.
  destruct (resolve_remote_globs_spec _ _ _ Hres) as (-> & Hstore & Hself).
  assert (Hl1 : store w1 !! l = Some orig).
  { rewrite Hstore; [exact Horig|].
    apply lookup_lt_Some in Horig. lia. }
  split; [|exact Hl1].
  unfold expand_remote_globs. unfold bind at 1. rewrite Hres.
  unfold bind at 1. unfold deref at 1. rewrite Hfs.
  cbn [default from_option id].
  destruct fs as [|f fs']; [congruence|]. cbn [nonempty].
  unfold bind, logger, get_self. rewrite current_files_ok. cbn [self store].
  rewrite Hself, Hl, Hl1. cbn [default from_option id].
  destruct orig as [|o orig']; [congruence|]. reflexivity.
Qed.

(** A configured list that is empty, or absent, is left alone: the
    attribute is bound to the list of resolved paths instead. *)
Lemma expand_rebinds w found w1 fs :
  _resolve_remote_globs E w = (Ok found, w1) ->
  store w1 !! found = Some fs -> fs <> [] ->
  match remote_files (self w) with
  | Some l => store w !! l = Some []
  | None => True
  end ->
  expand_remote_globs E w
  = (Ok tt,
     mkWorld (with_remote_files (self w1) (Some found)) (store w1)
       (_worker_grid_connection w1) (ext w1)
       (log w1 ++ [LogFoundViaGlob (length fs)]) (calls w1))
  /\ match remote_files (self w) with
     | Some l => found <> l /\ store w1 !! l = Some []
     | None => True
     end.
Proof.
  intros Hres Hfs Hne Hcfg.
  destruct (resolve_remote_globs_spec _ _ _ Hres) as (-> & Hstore & Hself).
  split.
  - unfold expand_remote_globs. unfold bind at 1. rewrite Hres.
    unfold bind at 1. unfold deref at 1. rewrite Hfs.
    cbn [default from_option id].
    destruct fs as [|f fs']; [congruence|]. cbn [nonempty].
    unfold bind, logger, get_self. rewrite current_files_ok. cbn [self store].
    rewrite Hself.
    destruct (remote_files (self w)) as [l|]; [|reflexivity].
    rewrite Hstore, Hcfg; [reflexivity|].
    apply lookup_lt_Some in Hcfg. lia.
  - destruct (remote_files (self w)) as [l|]; [|exact I].
    pose proof (lookup_lt_Some _ _ _ Hcfg) as Hlt.
    split; [lia|]. rewrite Hstore; [exact Hcfg | lia].
Qed.

(** C10, as amended.  [download] changes the handler.  When the globs
    resolve to some paths: a configured [remote_files] list that is not
    empty receives them in place, so the list object of the configuration
    holds the old entries followed by the resolved ones when [download] is
    over, and that is the list a later call starts from; a configured list
    that is empty or absent is left alone and [self.remote_files] is bound
    to the new list of resolved paths.  With the TGrid backend the
    attribute [alien_session] is deleted before the pool is started: the
    handler sent to the workers is without it, and so is the handler
    afterwards. *)
Theorem download_mutates_handler w :
  let w3 := snd (download E w) in
  (forall found w1 fs,
      _resolve_remote_globs E w = (Ok found, w1) ->
      store w1 !! found = Some fs -> fs <> [] ->
      (forall l orig,
          remote_files (self w) = Some l ->
          store w !! l = Some orig -> orig <> [] ->
          remote_files (self w3) = Some l
          /\ store w3 !! l = Some (orig ++ fs))
      /\ (match remote_files (self w) with
          | Some l => store w !! l = Some []
          | None => True
          end ->
          remote_files (self w3) = Some found
          /\ store w3 !! found = Some fs
          /\ match remote_files (self w) with
             | Some l => found <> l /\ store w3 !! l = Some []
             | None => True
             end))
  /\ (forall w2 files jobs,
      expand_remote_globs E w = (Ok tt, w2) ->
      fst (current_files w2) = Ok files -> files <> [] ->
      build_copy_list (self w2) files = Ok jobs ->
      backend (self w2) = "TGrid" ->
      1 <= num_workers (self w2) ->
      alien_session (self w3) = Deleted
      /\ exists pickled cs,
          calls w3
          = calls w2 ++ CallPool (num_workers (self w2)) pickled jobs :: cs
          /\ alien_session pickled = Deleted).
Proof.
  intros w3. split.
  - intros found w1 fs Hres Hfs Hne.
    pose proof (download_after_expand keeps_files w) as Hkeep.
    fold w3 in Hkeep. split.
    + intros l orig Hl Horig Hone.
      destruct (expand_extends_in_place _ _ _ _ _ _ Hres Hfs Hne Hl Horig Hone)
        as [Hexp Hl1].
      rewrite Hexp in Hkeep. destruct Hkeep as [Hstore Hself].
      cbn [snd store self] in Hstore, Hself.
      destruct (resolve_remote_globs_spec _ _ _ Hres) as (_ & _ & Hself1).
      split; [congruence|].
      rewrite Hstore, list_lookup_alter_eq, Hl1. reflexivity.
    + intros Hcfg.
      destruct (expand_rebinds _ _ _ _ Hres Hfs Hne Hcfg) as [Hexp Hold].
      rewrite Hexp in Hkeep. destruct Hkeep as [Hstore Hself].
      cbn [snd store self] in Hstore, Hself.
      split; [exact Hself|]. rewrite Hstore. split; [exact Hfs|].
      exact Hold.
  - intros w2 files jobs Hexp Hfiles Hne Hjobs Hbackend Hworkers.
    set (pickled := match alien_session (self w2) with
                    | Bound _ => with_alien_session (self w2) Deleted
                    | Deleted => self w2
                    end).
    assert (Hpickled : alien_session pickled = Deleted).
    { unfold pickled. destruct (alien_session (self w2)) eqn:Hs;
        [exact Hs | reflexivity]. }
    set (wp := mkWorld pickled (store w2) (_worker_grid_connection w2)
                 (ext w2)
                 (log w2 ++ [LogStarting "TGrid" (length jobs)])
                 (calls w2 ++ [CallPool (num_workers (self w2)) pickled jobs])).
    assert (Hshape :
      w3 = match pool_map E jobs 0%nat
                   (fun _ => _worker_grid_connection w2) wp with
           | (Ok results, w') =>
               after w' [LogDone (Z.of_nat (length (filter is_Some results)))
                           (length jobs)] []
           | (Raise e, w') => w'
           end).
    { subst w3. unfold download. unfold bind at 1. rewrite Hexp.
      unfold bind at 1. rewrite current_files_ok in *. simpl in Hfiles.
      injection Hfiles as Hfiles. rewrite Hfiles.
      destruct files as [|f files']; [congruence|]. cbn [nonempty negb].
      unfold bind at 1. unfold get_self at 1.
      unfold bind at 1. unfold lift at 1. rewrite Hjobs.
      unfold bind at 1. unfold logger at 1.
      unfold perform_download. unfold bind at 1. unfold get_self at 1.
      cbn [self]. rewrite Hbackend.
      change (String.eqb "TGrid" "TGrid") with true. cbv iota.
      assert (Hlt : (num_workers (self w2) <? 1) = false)
        by (apply Z.ltb_ge; lia).
      unfold run_pool. rewrite Hlt.
      unfold bind, get_self, record_call, get_conn, ret, logger,
        set_alien_session, after.
      unfold wp, pickled.
      destruct (alien_session (self w2)); cbn [self store ext log calls
        _worker_grid_connection fst snd];
        destruct (pool_map E jobs 0 _ _) as [[results|e] w'];
        cbn [snd]; rewrite ?app_nil_r; reflexivity. }
    pose proof (steps_pool_map E keeps_handler jobs 0%nat
                  (fun _ => _worker_grid_connection w2) wp) as Hpool.
    rewrite Hshape.
    destruct (pool_map E jobs 0%nat _ wp) as [[results|e] w'];
      cbn [snd] in Hpool; destruct Hpool as (Hself & cs & Hcalls);
      unfold after; cbn [self calls].
    all: rewrite Hself; split; [exact Hpickled|].
    all: exists pickled, cs; split; [|exact Hpickled].
    all: rewrite ?app_nil_r, Hcalls; unfold wp; cbn [calls];
      now rewrite <- app_assoc.
Qed.

End Mutation.

Lemma download_mutates_handler_witness :
  let w := Sim.world (Sim.handler "TGrid" (Some 0%nat) (Some [("/a", "*.root")]))
             [["/a/b/h.root"]] (Sim.grid_up []) in
  let w3 := snd (download Sim.externals w) in
  remote_files (self w3) = Some 0%nat
  /\ store w3 !! 0%nat = Some ["/a/b/h.root"; "/a/b/f.root"; "/a/c/g.root"]
  /\ alien_session (self w3) = Deleted.
Proof.
  intros w w3.
  destruct (download_mutates_handler Sim.externals w) as [Hlist Hsession].
  destruct (Hlist 1%nat (snd (_resolve_remote_globs Sim.externals w))
              ["/a/b/f.root"; "/a/c/g.root"]) as [Hin _];
    [vm_compute; reflexivity | vm_compute; reflexivity | discriminate |].
  destruct (Hin 0%nat ["/a/b/h.root"]) as [Hself Hstore];
    [vm_compute; reflexivity | vm_compute; reflexivity | discriminate |].
  destruct (Hsession (snd (expand_remote_globs Sim.externals w))
              ["/a/b/h.root"; "/a/b/f.root"; "/a/c/g.root"]
              [("/a/b/h.root", "grid/a/b/h.root");
               ("/a/b/f.root", "grid/a/b/f.root");
               ("/a/c/g.root", "grid/a/c/g.root")]) as [Hdel _];
    [vm_compute; reflexivity | vm_compute; reflexivity | discriminate
    | vm_compute; reflexivity | vm_compute; reflexivity
    | apply Z.leb_le; vm_compute; reflexivity |].
  repeat split; assumption.
Defined.

(** With an empty configured list the resolved paths do not reach the list
    object of the configuration: [self.remote_files] is bound to a new list.
    And after a TGrid run with globs, a second [download] on the same handler
    does not get as far as the file list: [_ensure_alien_connection] reads the
    deleted attribute and [AttributeError] is raised. *)
Lemma download_in_place_counterexample :
  let w := Sim.world (Sim.handler "TGrid" (Some 0%nat) (Some [("/a", "*.root")]))
             [[]] (Sim.grid_up []) in
  let w3 := snd (download Sim.externals w) in
  store w3 !! 0%nat = Some []
  /\ remote_files (self w3) = Some 1%nat
  /\ store w3 !! 1%nat = Some ["/a/b/f.root"; "/a/c/g.root"]
  /\ fst (download Sim.externals w3) = Raise AttributeError.
Proof. vm_compute. repeat split. Qed.

(** A job that failed in the first run is not skipped in the second: its
    file is not on disk, so it is attempted again and fails again. *)
Lemma rerun_after_failure_counterexample :
  let h := Sim.handler "TGrid" (Some 0%nat) None in
  let first := download Sim.externals
                 (Sim.world h [["/a/b/zz.root"]] (Sim.grid_up [])) in
  let second := download Sim.externals
                  (Sim.world h [["/a/b/zz.root"]] (ext (snd first))) in
  log (snd first)
  = [LogStarting "TGrid" 1;
     LogCopy "alien:///a/b/zz.root" "grid/a/b/zz.root";
     LogDownloadFailed "/a/b/zz.root"; LogDone 0 1]
  /\ log (snd second)
  = [LogStarting "TGrid" 1;
     LogCopy "alien:///a/b/zz.root" "grid/a/b/zz.root";
     LogDownloadFailed "/a/b/zz.root"; LogDone 0 1]
  /\ In (CallCp "alien:///a/b/zz.root" "file:grid/a/b/zz.root")
       (calls (snd second)).
Proof.
  vm_compute. repeat split. auto.
Qed.

(** * Further properties *)

(** ** More on the path mapper *)

Section MapperShape.
Implicit Types (h : GridHandler) (remote_path p x b : string).

(** The directory slice [parts[-(kd+1):-1]] is empty exactly when there is
    no directory, when [kd] is 0, or when [kd] is so negative that the
    start of the slice passes the last directory. *)
Lemma slice_dirs_nil_iff {A} (l : list A) (kd : Z) :
  l <> [] ->
  PySlice.slice l (Some (- (kd + 1))) (Some (-1)) = [] <->
  length l = 1%nat \/ kd = 0 \/ kd <= - Z.of_nat (length l).
Proof.
  intros Hl.
  assert (Hn : (1 <= length l)%nat) by (destruct l; [congruence | simpl; lia]).
  rewrite <- length_zero_iff_nil.
  unfold PySlice.slice, PySlice.adjust.
  rewrite length_take, length_drop.
  replace (-1 <? 0) with true by reflexivity.
  destruct (- (kd + 1) <? 0) eqn:Hneg.
  - apply Z.ltb_lt in Hneg. lia.
  - apply Z.ltb_ge in Hneg. lia.
Qed.

Lemma unique_local_path_raises_type_error h remote_path e :
  _unique_local_path h remote_path = Raise e -> e = TypeError.
Proof.
  destruct (keep_depth h) as [kd|] eqn:Hkd.
  - rewrite (unique_local_path_set _ _ _ Hkd).
    destruct (PySlice.slice _ _ _);
      destruct (last (path_parts remote_path)); congruence.
  - rewrite (unique_local_path_unset _ _ Hkd). discriminate.
Qed.

(** When the mapper raises: never with [keep_depth] unset; with an integer
    [keep_depth] exactly when the directory slice is empty; and what it
    raises is always [TypeError]. *)
Theorem mapper_raises_iff h remote_path :
  (raises (_unique_local_path h remote_path) = true <->
   exists kd, keep_depth h = Some kd
     /\ (length (path_parts remote_path) = 1%nat \/ kd = 0
         \/ kd <= - Z.of_nat (length (path_parts remote_path))))
  /\ (raises (_unique_local_path h remote_path) = true ->
      _unique_local_path h remote_path = Raise TypeError).
Proof.
  destruct (keep_depth h) as [kd|] eqn:Hkd.
  - rewrite (unique_local_path_set _ _ _ Hkd).
    pose proof (slice_dirs_nil_iff (path_parts remote_path) kd
                  (path_parts_not_nil remote_path)) as Hiff.
    destruct (last (path_parts remote_path)) as [fn|] eqn:Hlast.
    2: { apply last_None in Hlast. now apply path_parts_not_nil in Hlast. }
    destruct (PySlice.slice _ _ _) as [|d ds]; simpl.
    + split; [|reflexivity]. split; [|reflexivity].
      intros _. exists kd. split; [reflexivity|]. now apply Hiff.
    + split; [|discriminate]. split; [discriminate|].
      intros (kd' & [= <-] & Hcond). apply Hiff in Hcond. discriminate.
  - rewrite (unique_local_path_unset _ _ Hkd). simpl.
    split; [|discriminate]. split; [discriminate|].
    intros (kd & Hc & _). discriminate.
Qed.

(** *** Slashes around the remote path *)

Lemma rstrip_append_slash x : PyStr.rstrip (x +:+ "/") = PyStr.rstrip x.
Proof.
  induction x as [|c x IH]; [reflexivity|].
  rewrite append_cons. simpl. now rewrite IH.
Qed.

Lemma lstrip_all_slashes x : PyStr.all_slashes x = true -> PyStr.lstrip x = "".
Proof.
  induction x as [|c x IH]; simpl; [reflexivity|].
  destruct (PyStr.is_slash c); simpl; [exact IH | discriminate].
Qed.

Lemma lstrip_append_slash x :
  PyStr.lstrip (x +:+ "/") =
  if PyStr.all_slashes x then "" else PyStr.lstrip x +:+ "/".
Proof.
  induction x as [|c x IH]; [reflexivity|].
  rewrite append_cons. simpl. destruct (PyStr.is_slash c); simpl.
  - exact IH.
  - now rewrite append_cons.
Qed.

Lemma strip_append_slash x : PyStr.strip (x +:+ "/") = PyStr.strip x.
Proof.
  unfold PyStr.strip. rewrite lstrip_append_slash.
  destruct (PyStr.all_slashes x) eqn:Hall.
  - now rewrite (lstrip_all_slashes _ Hall).
  - apply rstrip_append_slash.
Qed.

(** A leading or a trailing slash on the remote path makes no difference to
    the local path. *)
Theorem mapper_ignores_outer_slashes h remote_path :
  _unique_local_path h ("/" +:+ remote_path) = _unique_local_path h remote_path
  /\ _unique_local_path h (remote_path +:+ "/")
     = _unique_local_path h remote_path.
Proof.
  unfold _unique_local_path, path_parts.
  rewrite strip_append_slash. split; reflexivity.
Qed.

(** *** The shape of a local path *)

(** The separator [posixpath.join] puts after [x]. *)
Lemma join_step_append x b :
  PyStr.startswith "/" b = false ->
  OsPath.join_step x b
  = x +:+ (if PyStr.is_empty x || PyStr.ends_with_slash x then "" else "/")
      +:+ b.
Proof.
  intros Hb. unfold OsPath.join_step. rewrite Hb.
  destruct (PyStr.is_empty x || PyStr.ends_with_slash x); reflexivity.
Qed.

Lemma no_slash_no_lead b :
  PyStr.has_slash b = false -> PyStr.startswith "/" b = false.
Proof.
  intros Hb. destruct (PyStr.startswith "/" b) eqn:Hs; [|reflexivity].
  apply startswith_slash_has_slash in Hs. congruence.
Qed.

Lemma startswith_slash_append x y :
  PyStr.startswith "/" (x +:+ y) =
  if PyStr.is_empty x then PyStr.startswith "/" y else PyStr.startswith "/" x.
Proof.
  destruct x as [|c x]; [reflexivity|].
  rewrite append_cons. cbn [PyStr.startswith PyStr.is_empty].
  reflexivity.
Qed.

Lemma join_step_no_lead x b :
  PyStr.startswith "/" x = false -> PyStr.startswith "/" b = false ->
  PyStr.startswith "/" (OsPath.join_step x b) = false.
Proof.
  intros Hx Hb. rewrite (join_step_append _ _ Hb).
  rewrite startswith_slash_append.
  destruct x as [|c x]; [exact Hb | exact Hx].
Qed.

Lemma join_no_lead (bs : list string) : forall x,
  PyStr.startswith "/" x = false ->
  Forall (fun b => PyStr.startswith "/" b = false) bs ->
  PyStr.startswith "/" (OsPath.join x bs) = false.
Proof.
  unfold OsPath.join.
  induction bs as [|b bs IH]; intros x Hx Hbs; simpl; [exact Hx|].
  apply Forall_cons in Hbs as [Hb Hbs].
  apply IH; [|exact Hbs]. now apply join_step_no_lead.
Qed.

(** Joining components that do not start with a slash only appends. *)
Lemma join_appends (bs : list string) : forall x,
  Forall (fun b => PyStr.startswith "/" b = false) bs ->
  exists rest, OsPath.join x bs = x +:+ rest.
Proof.
  unfold OsPath.join.
  induction bs as [|b bs IH]; intros x Hbs; simpl.
  - exists "". now rewrite append_empty_r.
  - apply Forall_cons in Hbs as [Hb Hbs].
    destruct (IH (OsPath.join_step x b) Hbs) as [rest ->].
    rewrite (join_step_append _ _ Hb), !append_assoc. eauto.
Qed.

(** The segments of a split hold no slash. *)
Lemma split_segments_no_slash x :
  Forall (fun b => PyStr.has_slash b = false) (PyStr.split x).
Proof.
  unfold PyStr.split.
  induction x as [|c x IH]; simpl.
  - repeat constructor.
  - change (Ascii.eqb c PyStr.slash) with (PyStr.is_slash c).
    destruct (PyStr.is_slash c) eqn:Hc.
    + constructor; [reflexivity | exact IH].
    + destruct (PyStr.split_on PyStr.slash x) as [|b bs].
      * repeat constructor. simpl. now rewrite Hc.
      * apply Forall_cons in IH as [Hb Hbs].
        constructor; [|exact Hbs]. simpl. now rewrite Hc, Hb.
Qed.

Lemma path_parts_no_lead remote_path :
  Forall (fun b => PyStr.startswith "/" b = false) (path_parts remote_path).
Proof.
  eapply Forall_impl; [apply split_segments_no_slash|].
  intros b. apply no_slash_no_lead.
Qed.

Lemma slice_Forall {A} (P : A -> Prop) (l : list A) lo hi :
  Forall P l -> Forall P (PySlice.slice l lo hi).
Proof. intros Hl. unfold PySlice.slice. now apply Forall_take, Forall_drop. Qed.

(** Every local path the mapper returns is the output directory followed by
    some middle part and the file name, the last segment of the remote
    path: the mapper never leaves the output directory by way of an
    absolute component, and never renames the file. *)
Theorem mapper_path_shape h remote_path p filename :
  _unique_local_path h remote_path = Ok p ->
  last (path_parts remote_path) = Some filename ->
  exists middle, p = output_dir h +:+ middle +:+ filename.
Proof.
  intros Hp Hlast.
  pose proof (path_parts_no_lead remote_path) as Hparts.
  assert (Hfn : PyStr.startswith "/" filename = false).
  { destruct (proj1 (last_Some _ _) Hlast) as [init Hinit].
    rewrite Hinit in Hparts.
    apply Forall_app in Hparts as [_ Hfn]. exact (Forall_inv Hfn). }
  destruct (keep_depth h) as [kd|] eqn:Hkd.
  - rewrite (unique_local_path_set _ _ _ Hkd), Hlast in Hp.
    pose proof (slice_Forall _ _ (Some (- (kd + 1))) (Some (-1)) Hparts) as Hs.
    destruct (PySlice.slice _ _ _) as [|d ds]; [discriminate|].
    injection Hp as <-.
    apply Forall_cons in Hs as [Hd Hds].
    pose proof (join_no_lead ds d Hd Hds) as Hsub.
    change (OsPath.join (output_dir h) [OsPath.join d ds; filename])
      with (OsPath.join_step
              (OsPath.join_step (output_dir h) (OsPath.join d ds)) filename).
    rewrite (join_step_append _ _ Hfn), (join_step_append _ _ Hsub).
    rewrite !append_assoc.
    match goal with
    | |- exists m, _ +:+ ?a +:+ ?b +:+ ?c +:+ _ = _ => exists (a +:+ b +:+ c)
    end.
    now rewrite !append_assoc.
  - rewrite (unique_local_path_unset _ _ Hkd) in Hp. injection Hp as <-.
    destruct (proj1 (last_Some _ _) Hlast) as [init Hinit].
    rewrite Hinit in *.
    apply Forall_app in Hparts as [Hinit' _].
    unfold OsPath.join. rewrite fold_left_app. simpl.
    destruct (join_appends init (output_dir h) Hinit') as [rest Hrest].
    unfold OsPath.join in Hrest. rewrite Hrest.
    rewrite (join_step_append _ _ Hfn), !append_assoc.
    match goal with
    | |- exists m, _ +:+ ?a +:+ ?b +:+ _ = _ => exists (a +:+ b)
    end.
    now rewrite !append_assoc.
Qed.

(** *** A generous keep-depth *)

Lemma sep_after_join x y :
  PyStr.startswith "/" y = false ->
  (if PyStr.is_empty (OsPath.join_step x y)
      || PyStr.ends_with_slash (OsPath.join_step x y) then "" else "/")
  = (if PyStr.is_empty y || PyStr.ends_with_slash y then "" else "/").
Proof.
  intros Hy. rewrite (join_step_append _ _ Hy).
  rewrite !is_empty_append, !ends_with_slash_append, is_empty_append.
  destruct y as [|c y].
  - simpl. rewrite andb_true_r.
    destruct (PyStr.is_empty x) eqn:Hx; simpl.
    + apply is_empty_true in Hx. subst x. reflexivity.
    + destruct (PyStr.ends_with_slash x); reflexivity.
  - simpl PyStr.is_empty. rewrite !andb_false_r. reflexivity.
Qed.

Lemma join_step_assoc x y b :
  PyStr.startswith "/" y = false -> PyStr.startswith "/" b = false ->
  OsPath.join_step x (OsPath.join_step y b)
  = OsPath.join_step (OsPath.join_step x y) b.
Proof.
  intros Hy Hb.
  rewrite (join_step_append (OsPath.join_step x y) b Hb).
  rewrite (sep_after_join x y Hy).
  rewrite (join_step_append x _ (join_step_no_lead _ _ Hy Hb)).
  rewrite (join_step_append y b Hb), (join_step_append x y Hy).
  now rewrite !append_assoc.
Qed.

Lemma join_nested (bs : list string) : forall x y,
  PyStr.startswith "/" y = false ->
  Forall (fun b => PyStr.startswith "/" b = false) bs ->
  OsPath.join_step x (OsPath.join y bs) = OsPath.join x (y :: bs).
Proof.
  unfold OsPath.join.
  induction bs as [|b bs IH]; intros x y Hy Hbs; simpl; [reflexivity|].
  apply Forall_cons in Hbs as [Hb Hbs].
  rewrite (IH x (OsPath.join_step y b) (join_step_no_lead _ _ Hy Hb) Hbs).
  simpl. now rewrite join_step_assoc.
Qed.

(** With at least one directory in the remote path and a [keep_depth] that
    covers all of them, the local path is the one obtained with
    [keep_depth] unset. *)
Theorem mapper_generous_keep_depth h remote_path kd :
  keep_depth h = Some kd ->
  (2 <= length (path_parts remote_path))%nat ->
  Z.of_nat (length (path_parts remote_path)) <= kd + 1 ->
  _unique_local_path h remote_path
  = _unique_local_path (with_keep_depth h None) remote_path.
Proof.
  intros Hkd Hmin Hmax.
  pose proof (path_parts_no_lead remote_path) as Hparts.
  rewrite (unique_local_path_unset (with_keep_depth h None)) by reflexivity.
  change (output_dir (with_keep_depth h None)) with (output_dir h).
  destruct (last (path_parts remote_path)) as [filename|] eqn:Hlast.
  2: { apply last_None in Hlast. now apply path_parts_not_nil in Hlast. }
  destruct (proj1 (last_Some _ _) Hlast) as [dirs Hp].
  rewrite Hp in Hmin, Hmax, Hparts |- *.
  rewrite length_app in Hmin, Hmax. cbn [length] in Hmin, Hmax.
  destruct dirs as [|d ds]; [cbn [length] in Hmin; lia|].
  rewrite (unique_local_path_fewer_dirs h remote_path kd d ds filename Hkd Hp)
    by lia.
  apply Forall_app in Hparts as [Hdirs Hfn].
  apply Forall_cons in Hdirs as [Hd Hds].
  f_equal. unfold OsPath.join at 1. simpl fold_left.
  rewrite (join_nested ds (output_dir h) d Hd Hds).
  unfold OsPath.join. now rewrite fold_left_app.
Qed.

(** *** Which directories are kept *)

Lemma slice_kept_dirs {A} (dirs : list A) (filename : A) (kd : Z) :
  PySlice.slice (dirs ++ [filename]) (Some (- (kd + 1))) (Some (-1))
  = if 0 <=? kd then drop (length dirs - Z.to_nat kd) dirs
    else drop (Z.to_nat (- (kd + 1))) dirs.
Proof.
  unfold PySlice.slice, PySlice.adjust.
  rewrite length_app. cbn [length].
  replace (-1 <? 0) with true by reflexivity.
  replace (Z.max (-1 + Z.of_nat (length dirs + 1)) 0)
    with (Z.of_nat (length dirs)) by lia.
  destruct (0 <=? kd) eqn:Hkd.
  - apply Z.leb_le in Hkd.
    replace (- (kd + 1) <? 0) with true by (symmetry; apply Z.ltb_lt; lia).
    replace (Z.to_nat (Z.max (- (kd + 1) + Z.of_nat (length dirs + 1)) 0))
      with (length dirs - Z.to_nat kd)%nat by lia.
    rewrite drop_app_le by lia.
    rewrite take_app_le by (rewrite length_drop; lia).
    apply take_ge. rewrite length_drop. lia.
  - apply Z.leb_gt in Hkd.
    replace (- (kd + 1) <? 0) with false by (symmetry; apply Z.ltb_ge; lia).
    destruct (decide (Z.to_nat (- (kd + 1)) <= length dirs)%nat) as [Hle|Hgt].
    + replace (Z.to_nat (Z.min (- (kd + 1)) (Z.of_nat (length dirs + 1))))
        with (Z.to_nat (- (kd + 1))) by lia.
      rewrite drop_app_le by lia.
      rewrite take_app_le by (rewrite length_drop; lia).
      apply take_ge. rewrite length_drop. lia.
    + rewrite (drop_ge dirs) by lia.
      replace (Z.to_nat (Z.of_nat (length dirs) - _)) with 0%nat by lia.
      reflexivity.
Qed.

(** What [keep_depth] selects.  For a remote path with directories [dirs]
    before its file name, a [keep_depth] of [kd >= 0] keeps the last [kd] of
    them; a negative one instead drops the first [-(kd+1)], so that -1
    keeps them all.  The local path is the output directory joined with the
    kept directories and the file name, and the mapper raises when none is
    kept. *)
Theorem mapper_kept_directories h remote_path kd dirs filename :
  keep_depth h = Some kd ->
  path_parts remote_path = dirs ++ [filename] ->
  let kept :=
    if 0 <=? kd then drop (length dirs - Z.to_nat kd) dirs
    else drop (Z.to_nat (- (kd + 1))) dirs in
  _unique_local_path h remote_path =
  match kept with
  | d :: ds => Ok (OsPath.join (output_dir h) [OsPath.join d ds; filename])
  | [] => Raise TypeError
  end.
Proof.
  intros Hkd Hparts kept.
  rewrite (unique_local_path_set _ _ _ Hkd), Hparts.
  rewrite slice_kept_dirs, last_snoc. fold kept.
  destruct kept; reflexivity.
Qed.

(** *** The fallback name *)

Lemma slice_last_item {A} (l : list A) (x : A) :
  last l = Some x -> PySlice.slice l (Some (-1)) None = [x].
Proof.
  intros Hl. apply last_Some in Hl as [init ->].
  unfold PySlice.slice, PySlice.adjust.
  replace (-1 <? 0) with true by reflexivity.
  rewrite length_app. simpl length.
  replace (Z.to_nat (Z.max (-1 + Z.of_nat (length init + 1)) 0))
    with (length init) by lia.
  rewrite drop_app_length.
  replace (Z.to_nat _) with 1%nat by lia. reflexivity.
Qed.

(** [_auto_unique_path] returns the output directory joined with the last
    segment of the remote path, whatever file name it is given: its
    [filename] argument is never used, and two remote paths with the same
    last segment get the same name. *)
Theorem auto_unique_path_is_basename h remote_path filename name :
  last (path_parts remote_path) = Some name ->
  _auto_unique_path h remote_path filename
  = OsPath.join (output_dir h) [name]
  /\ forall remote_path' filename',
       last (path_parts remote_path') = Some name ->
       _auto_unique_path h remote_path' filename'
       = _auto_unique_path h remote_path filename.
Proof.
  intros Hlast.
  assert (Hone : forall rp fn, last (path_parts rp) = Some name ->
            _auto_unique_path h rp fn = OsPath.join (output_dir h) [name]).
  { intros rp fn Hrp. rewrite auto_unique_path_depth_one.
    now rewrite (slice_last_item _ _ Hrp). }
  split; [now apply Hone|].
  intros rp' fn' Hrp'. now rewrite !Hone.
Qed.

End MapperShape.

Lemma mapper_raises_iff_witness :
  _unique_local_path (Sim.handler "TGrid" None None) "f.root" = Raise TypeError.
Proof.
  apply (mapper_raises_iff (Sim.handler "TGrid" None None) "f.root").
  vm_compute. reflexivity.
Defined.

Lemma mapper_path_shape_witness :
  exists middle, "grid/b/c/d.root" = "grid" +:+ middle +:+ "d.root".
Proof.
  apply (mapper_path_shape
           (with_keep_depth (Sim.handler "TGrid" None None) (Some 2))
           "/a/b/c/d.root" "grid/b/c/d.root" "d.root");
    vm_compute; reflexivity.
Defined.

Lemma mapper_kept_directories_witness :
  _unique_local_path (with_keep_depth (Sim.handler "TGrid" None None) (Some 2))
    "/a/b/c/d.root" = Ok "grid/b/c/d.root"
  /\ _unique_local_path
       (with_keep_depth (Sim.handler "TGrid" None None) (Some (-2)))
       "/a/b/c/d.root" = Ok "grid/b/c/d.root".
Proof.
  split.
  - apply (mapper_kept_directories
             (with_keep_depth (Sim.handler "TGrid" None None) (Some 2))
             "/a/b/c/d.root" 2 ["a"; "b"; "c"] "d.root");
      vm_compute; reflexivity.
  - apply (mapper_kept_directories
             (with_keep_depth (Sim.handler "TGrid" None None) (Some (-2)))
             "/a/b/c/d.root" (-2) ["a"; "b"; "c"] "d.root");
      vm_compute; reflexivity.
Defined.

Lemma mapper_generous_keep_depth_witness :
  _unique_local_path (Sim.handler "TGrid" None None) "/a/b/c/d.root"
  = _unique_local_path (with_keep_depth (Sim.handler "TGrid" None None) None)
      "/a/b/c/d.root".
Proof.
  apply (mapper_generous_keep_depth (Sim.handler "TGrid" None None)
           "/a/b/c/d.root" 5).
  - reflexivity.
  - vm_compute. lia.
  - apply Z.leb_le. vm_compute. reflexivity.
Defined.

Lemma auto_unique_path_is_basename_witness :
  _auto_unique_path (Sim.handler "TGrid" None None) "/x/y/f.root" "ignored"
  = "grid/f.root"
  /\ _auto_unique_path (Sim.handler "TGrid" None None) "/z/f.root" "other"
     = _auto_unique_path (Sim.handler "TGrid" None None) "/x/y/f.root" "ignored".
Proof.
  destruct (auto_unique_path_is_basename (Sim.handler "TGrid" None None)
              "/x/y/f.root" "ignored" "f.root") as [H1 H2];
    [vm_compute; reflexivity|].
  split.
  - exact H1.
  - apply H2. vm_compute. reflexivity.
Defined.

(** ** URI prefixes *)

Lemma startswith_append (prefix s : string) :
  PyStr.startswith prefix (prefix +:+ s) = true.
Proof.
  induction prefix as [|c prefix IH]; [reflexivity|].
  rewrite append_cons. cbn [PyStr.startswith].
  now rewrite Ascii.eqb_refl, IH.
Qed.

(** Prefixing is idempotent: the result carries the prefix, and a string
    that carries it already is left alone, so no URI is prefixed twice. *)
Theorem add_prefix_idempotent (prefix s : string) :
  PyStr.startswith prefix (add_prefix prefix s) = true
  /\ add_prefix prefix (add_prefix prefix s) = add_prefix prefix s.
Proof.
  assert (H : PyStr.startswith prefix (add_prefix prefix s) = true).
  { unfold add_prefix. destruct (PyStr.startswith prefix s) eqn:Hs;
      [exact Hs | apply startswith_append]. }
  split; [exact H|]. unfold add_prefix at 1. now rewrite H.
Qed.

(** ** The AliEn session *)

Section Session.
Context {X : Type} (E : Externals X).
Implicit Types (w : World X).

(** Once [_ensure_alien_connection] has returned a session, calling it
    again returns the same session and changes nothing: no second
    [InitConnection], no log record. *)
Theorem session_is_reused w w1 s :
  _ensure_alien_connection E w = (Ok (Some s), w1) ->
  _ensure_alien_connection E w1 = (Ok (Some s), w1).
Proof.
  unfold _ensure_alien_connection, bind, get_self, logger, record_call,
    external_raising, set_alien_session, ret, raise.
  destruct (negb (alien E)); [discriminate|].
  destruct (alien_session (self w)) as [|[s0|]] eqn:Hs.
  - discriminate.
  - intros [= -> <-]. now rewrite Hs.
  - simpl. destruct (InitConnection E (ext w)) as [[[s1|]|e] x']; simpl;
      try discriminate.
    intros [= -> <-]. reflexivity.
Qed.

(** A failed attempt is not remembered: when [InitConnection] gives no
    session, the call logs the failure and returns [None], the attribute is
    [None] again, and the next call asks [InitConnection] once more. *)
Theorem session_failure_is_retried w x' :
  alien E = true ->
  alien_session (self w) = Bound None ->
  InitConnection E (ext w) = (Ok None, x') ->
  let w1 :=
    mkWorld (with_alien_session (self w) (Bound None)) (store w)
      (_worker_grid_connection w) x'
      (log w ++ [LogConnecting; LogConnectFailed])
      (calls w ++ [CallInitConnection]) in
  _ensure_alien_connection E w = (Ok None, w1)
  /\ calls (snd (_ensure_alien_connection E w1))
     = calls w ++ [CallInitConnection; CallInitConnection].
Proof.
  intros Halien Hs Hinit w1.
  assert (H1 : _ensure_alien_connection E w = (Ok None, w1)).
  { unfold _ensure_alien_connection, bind, get_self, logger, record_call,
      external_raising, set_alien_session, ret.
    rewrite Halien. simpl. rewrite Hs. simpl. rewrite Hinit. simpl.
    unfold w1. now rewrite <- app_assoc. }
  split; [exact H1|].
  unfold _ensure_alien_connection, bind, get_self, logger, record_call,
    external_raising, set_alien_session, ret.
  rewrite Halien. simpl.
  destruct (InitConnection E x') as [[[s1|]|e] x'']; simpl;
    now rewrite <- !app_assoc.
Qed.

(** A good connection is made once per process: when [TGrid::Connect]
    leaves a connected handle, the first call caches it and copies, and any
    later call in the process does nothing but the copy. *)
Theorem tgrid_connection_is_reused w remote_file local_file
    remote_file' local_file' :
  _worker_grid_connection w = PyNone ->
  gGrid E (TGrid_Connect E (ext w)) = Handle true ->
  let w0 :=
    mkWorld (self w) (store w) (Handle true) (TGrid_Connect E (ext w))
      (log w) (calls w ++ [CallTGridConnect]) in
  let w1 := snd (_download_tgrid E remote_file local_file w) in
  _download_tgrid E remote_file local_file w
    = tgrid_copy E remote_file local_file w0
  /\ _worker_grid_connection w1 = Handle true
  /\ calls (snd (_download_tgrid E remote_file' local_file' w1))
     = calls w ++ [CallTGridConnect;
                   CallCp (add_prefix "alien://" remote_file)
                     (add_prefix "file:" local_file);
                   CallCp (add_prefix "alien://" remote_file')
                     (add_prefix "file:" local_file')].
Proof.
  intros Hc Hg w0 w1.
  assert (H1 : _download_tgrid E remote_file local_file w
               = tgrid_copy E remote_file local_file w0).
  { unfold _download_tgrid, bind, get_conn, record_call, external, observe,
      set_conn. rewrite Hc. simpl. rewrite Hg. reflexivity. }
  assert (Hconn : _worker_grid_connection w1 = Handle true).
  { unfold w1. rewrite H1.
    unfold tgrid_copy, bind, logger, record_call, external, ret. simpl.
    destruct (TFile_Cp E _ _ _) as [[|] x']; reflexivity. }
  split; [exact H1|]. split; [exact Hconn|].
  rewrite download_tgrid_cached by now rewrite Hconn.
  rewrite tgrid_copy_calls. unfold w1. rewrite H1, tgrid_copy_calls.
  simpl. now rewrite <- !app_assoc.
Qed.

End Session.

(** ** Glob resolution *)

Section Globs.
Context {X : Type} (E : Externals X).
Implicit Types (w : World X).

Lemma split_on_no_sep (sep : ascii) (s : string) :
  Forall (fun b => str_contains sep b = false) (PyStr.split_on sep s).
Proof.
  induction s as [|c s IH]; simpl.
  - repeat constructor.
  - destruct (Ascii.eqb c sep) eqn:Hc.
    + constructor; [reflexivity | exact IH].
    + destruct (PyStr.split_on sep s) as [|b bs].
      * repeat constructor. simpl. now rewrite Hc.
      * apply Forall_cons in IH as [Hb Hbs].
        constructor; [|exact Hbs]. simpl. now rewrite Hc, Hb.
Qed.

Lemma kept_lines_of_output (out : string) :
  Forall kept_line
    (filter (fun f => Is_true (PyStr.strip_nonempty f))
       (PyStr.split_on "010" out)).
Proof.
  apply Forall_forall. intros f Hf.
  apply list_elem_of_filter in Hf as [Hnb Hin]. split.
  - pose proof (split_on_no_sep "010" out) as Hall.
    rewrite Forall_forall in Hall. now apply Hall.
  - now apply Is_true_true.
Qed.

(** One round of the loop: whatever the query client does, the round ends
    normally, exactly one query has been sent, the handler and every other
    list are as before, and the list of found files has only grown, by
    lines that are kept. *)
Lemma resolve_round s found glob rest w :
  exists w',
    resolve_loop E s found (glob :: rest) w = resolve_loop E s found rest w'
    /\ calls w' = calls w ++ [find_call glob]
    /\ self w' = self w
    /\ (forall l, l <> found -> store w' !! l = store w !! l)
    /\ (forall old, store w !! found = Some old ->
          exists added, store w' !! found = Some (old ++ added)
                        /\ Forall kept_line added).
Proof.
  destruct glob as [base pattern].
  cbn [resolve_loop]. unfold bind at 1.
  unfold try_except, bind, record_call, external_raising, logger, extend.
  simpl.
  assert (Hsame : forall (st : list (list string)) old,
            st !! found = Some old ->
            exists added, st !! found = Some (old ++ added)
                          /\ Forall kept_line added).
  { intros st old Hold. exists []. rewrite app_nil_r. split; [exact Hold|].
    constructor. }
  destruct (DO_find2 E s _ (ext w)) as [[[out|]|e] x']; simpl.
  - destruct (PyStr.is_empty out); simpl.
    + eexists. split; [reflexivity|]. simpl. repeat split; auto.
    + eexists. split; [reflexivity|]. simpl. repeat split; auto.
      * intros l Hl. apply list_lookup_alter_ne. congruence.
      * intros old Hold. eexists. rewrite list_lookup_alter_eq, Hold.
        split; [reflexivity | apply kept_lines_of_output].
  - eexists. split; [reflexivity|]. simpl. repeat split; auto.
  - eexists. split; [reflexivity|]. simpl. repeat split; auto.
Qed.

(** A query that raises, or that finds nothing, does not stop the loop:
    the loop never raises, and every glob spec is queried exactly once, in
    the order given. *)
Theorem resolve_loop_queries_every_glob s found globs : forall w,
  fst (resolve_loop E s found globs w) = Ok tt
  /\ calls (snd (resolve_loop E s found globs w)) = calls w ++ find_calls globs.
Proof.
  induction globs as [|glob rest IH]; intros w.
  - simpl. now rewrite app_nil_r.
  - destruct (resolve_round s found glob rest w) as (w' & -> & Hcalls & _).
    destruct (IH w') as [Hok Hrest]. split; [exact Hok|].
    rewrite Hrest, Hcalls. simpl. now rewrite <- app_assoc.
Qed.

(** What the loop adds to the list of found files goes after what was
    there, and every added entry is a single line with something other
    than white space in it. *)
Lemma resolve_loop_adds_kept_lines s found globs : forall w old,
  store w !! found = Some old ->
  exists added,
    store (snd (resolve_loop E s found globs w)) !! found = Some (old ++ added)
    /\ Forall kept_line added.
Proof.
  induction globs as [|glob rest IH]; intros w old Hold.
  - exists []. simpl. rewrite app_nil_r. split; [exact Hold | constructor].
  - destruct (resolve_round s found glob rest w)
      as (w' & -> & _ & _ & _ & Hgrow).
    destruct (Hgrow old Hold) as (added1 & Hstore1 & Hkept1).
    destruct (IH w' _ Hstore1) as (added2 & Hstore2 & Hkept2).
    exists (added1 ++ added2). rewrite Hstore2, app_assoc.
    split; [reflexivity|]. now apply Forall_app.
Qed.

(** Without glob specs, or without the alienpy client, resolution returns a
    new empty list and reaches for nothing outside: no connection is
    attempted, no query is sent, the handler is untouched. *)
Theorem resolve_without_query w :
  (remote_files_glob (self w) = None \/ remote_files_glob (self w) = Some []
   \/ alien E = false) ->
  let w1 := snd (_resolve_remote_globs E w) in
  fst (_resolve_remote_globs E w) = Ok (length (store w))
  /\ store w1 = store w ++ [[]]
  /\ calls w1 = calls w /\ ext w1 = ext w /\ self w1 = self w.
Proof.
  intros Hcase w1. subst w1.
  unfold _resolve_remote_globs, bind, new_list, get_self, logger, ret. simpl.
  destruct (remote_files_glob (self w)) as [[|g gs]|] eqn:Hg;
    try (repeat split; reflexivity).
  destruct Hcase as [Hc|[Hc|Hc]]; try discriminate.
  rewrite Hc. simpl. repeat split; reflexivity.
Qed.

(** Every path in the list that [_resolve_remote_globs] returns is a single
    line with something other than white space in it: no empty or blank
    entry reaches the file list. *)
Theorem resolved_paths_are_kept_lines w found w1 :
  _resolve_remote_globs E w = (Ok found, w1) ->
  exists fs, store w1 !! found = Some fs /\ Forall kept_line fs.
Proof.
  intros Hres.
  destruct (resolve_remote_globs_spec E _ _ _ Hres) as [-> _].
  revert Hres.
  unfold _resolve_remote_globs. unfold bind at 1. unfold new_list at 1.
  cbv beta iota.
  set (w0 := mkWorld (self w) (store w ++ [[]]) (_worker_grid_connection w)
               (ext w) (log w) (calls w)).
  assert (H0 : store w0 !! length (store w) = Some []).
  { unfold w0. simpl. now apply list_lookup_middle. }
  assert (Hnil : forall w', store w' = store w0 ->
            exists fs, store w' !! length (store w) = Some fs
                       /\ Forall kept_line fs).
  { intros w' Hst. exists []. rewrite Hst. split; [exact H0 | constructor]. }
  unfold bind, get_self, ret, logger.
  destruct (remote_files_glob (self w0)) as [[|g gs]|].
  - intros [= <-]. now apply Hnil.
  - destruct (negb (alien E)).
    + intros [= <-]. now apply Hnil.
    + pose proof (steps_ensure_alien_connection E keeps_files w0) as Hkeep.
      destruct (_ensure_alien_connection E w0) as [[[s|]|e] w'];
        cbn [snd] in Hkeep; destruct Hkeep as [Hstore _]; try discriminate.
      * set (w2 := mkWorld (self w') (store w') (_worker_grid_connection w')
                     (ext w') (log w' ++ [LogResolving (length (g :: gs))])
                     (calls w')).
        assert (H2 : store w2 !! length (store w) = Some [])
          by (unfold w2; simpl; now rewrite Hstore).
        destruct (resolve_loop_adds_kept_lines s (length (store w)) (g :: gs)
                    w2 [] H2) as (added & Hadded & Hkept).
        destruct (resolve_loop E s (length (store w)) (g :: gs) w2)
          as [[[]|e] w3]; [|discriminate].
        intros [= <-]. exists added. split; [exact Hadded | exact Hkept].
      * intros [= <-]. now apply Hnil.
  - intros [= <-]. now apply Hnil.
Qed.

End Globs.

(** ** Jobs, the pool and the driver *)

Section ConfigFrame.
Context {X : Type}.
Implicit Types (w : World X).

Lemma keeps_config_same_self w w' : self w' = self w -> keeps_config w w'.
Proof. intros H. unfold keeps_config. rewrite H. repeat split. Qed.

Global Instance keeps_config_frame : Frame (keeps_config (X := X)).
Proof.
  split.
  - split.
    + intros w. now apply keeps_config_same_self.
    + intros w1 w2 w3 (A1 & A2 & A3 & A4 & A5 & A6)
        (B1 & B2 & B3 & B4 & B5 & B6).
      unfold keeps_config. repeat split; congruence.
  - intros w r. now apply keeps_config_same_self.
  - intros w x. now apply keeps_config_same_self.
  - intros w g. now apply keeps_config_same_self.
Qed.

Global Instance keeps_config_calls allowed :
  FrameCalls (keeps_config (X := X)) allowed.
Proof. intros w c _. now apply keeps_config_same_self. Qed.

Global Instance keeps_config_session : FrameSession (keeps_config (X := X)).
Proof. intros w v. repeat split. Qed.

Global Instance keeps_config_remote_files :
  FrameRemoteFiles (keeps_config (X := X)).
Proof. intros w v. repeat split. Qed.

Global Instance keeps_config_alloc : FrameAlloc (keeps_config (X := X)).
Proof. intros w v. now apply keeps_config_same_self. Qed.

Global Instance keeps_config_extend l : FrameExtend (keeps_config (X := X)) l.
Proof. intros w v. now apply keeps_config_same_self. Qed.

End ConfigFrame.

Section Driver.
Context {X : Type} (E : Externals X).
Implicit Types (w : World X) (h : GridHandler) (job : string * string).


(** *** The copy list *)

Lemma build_copy_list_raises h files :
  Exists (fun f => raises (_unique_local_path h f) = true) files ->
  build_copy_list h files = Raise TypeError.
Proof.
  induction files as [|f files IH]; intros Hex; [inversion Hex|].
  simpl. destruct (_unique_local_path h f) as [p|e] eqn:Hp; simpl.
  - apply Exists_cons in Hex as [Hf|Hex]; [rewrite Hp in Hf; discriminate|].
    now rewrite (IH Hex).
  - now rewrite (unique_local_path_raises_type_error _ _ _ Hp).
Qed.

(** The copy list pairs every remote file with its local path, in the
    order of the file list and with its duplicates; it cannot be built
    exactly when the mapper raises on some file, and then the exception is
    [TypeError]. *)
Theorem copy_list_pairs h files :
  match build_copy_list h files with
  | Ok jobs =>
      map fst jobs = files
      /\ Forall (fun job => _unique_local_path h (fst job) = Ok (snd job)) jobs
  | Raise e =>
      e = TypeError
      /\ Exists (fun f => raises (_unique_local_path h f) = true) files
  end.
Proof.
  induction files as [|f files IH]; simpl.
  - split; [reflexivity | constructor].
  - destruct (_unique_local_path h f) as [p|e] eqn:Hp; simpl.
    + destruct (build_copy_list h files) as [tl|e]; simpl.
      * destruct IH as [Hfst Hall]. split; [simpl; now rewrite Hfst|].
        constructor; [exact Hp | exact Hall].
      * destruct IH as [-> Hex]. split; [reflexivity|].
        now apply Exists_cons_tl.
    + split.
      * now apply (unique_local_path_raises_type_error h f).
      * apply Exists_cons_hd. now rewrite Hp.
Qed.

(** One remote path the mapper raises on stops the whole run: [download]
    raises [TypeError] right after the globs are expanded, before anything
    is logged about the download and before any pool or copy client is
    called. *)
Theorem download_aborts_on_unmappable_path w w1 files :
  expand_remote_globs E w = (Ok tt, w1) ->
  fst (current_files w1) = Ok files ->
  Exists (fun f => raises (_unique_local_path (self w1) f) = true) files ->
  download E w = (Raise TypeError, w1).
Proof.
  intros Hexp Hfiles Hex.
  pose proof (build_copy_list_raises _ _ Hex) as Hraise.
  unfold download. unfold bind at 1. rewrite Hexp.
  unfold bind at 1. rewrite current_files_ok in *. simpl in Hfiles.
  injection Hfiles as Hfiles. rewrite Hfiles.
  destruct files as [|f files']; [inversion Hex|]. cbn [nonempty negb].
  unfold bind, get_self, lift. now rewrite Hraise.
Qed.

(** *** One job *)

Lemma download_file_cases job w :
  match fst (_download_file E job w) with
  | Ok r => job_outcome job r
  | Raise e =>
      fst (os_makedirs E (OsPath.dirname (snd job)) (ext w)) = Raise e
  end.
Proof.
  destruct job as [remote_file local_file].
  unfold _download_file, bind, record_call, external_raising, observe,
    logger, ret, get_self. simpl.
  destruct (os_makedirs E _ (ext w)) as [[[]|e] x']; simpl; [|reflexivity].
  destruct (os_path_exists E local_file x'); simpl; [now right|].
  destruct (String.eqb (backend (self w)) "TGrid").
  - unfold _download_tgrid, tgrid_copy, bind, get_conn, record_call,
      external, observe, set_conn, logger, ret. simpl.
    destruct (is_None (_worker_grid_connection w)); simpl.
    + destruct (failed_handle _); simpl; [now left|].
      destruct (TFile_Cp E _ _ _) as [[|] x'']; simpl; [now right | now left].
    + destruct (TFile_Cp E _ _ _) as [[|] x'']; simpl; [now right | now left].
  - destruct (String.eqb (backend (self w)) "alienpy"); simpl; now left.
Qed.

(** A job hands back [None] or its own local path, and the only exception
    it can raise is the one [os.makedirs] raised on the parent directory: a
    failed connection or a failed copy is a [None], never an exception.
    With a backend other than TGrid the job copies nothing: apart from
    [os.makedirs] it makes no call. *)
Theorem download_file_outcome job w :
  match fst (_download_file E job w) with
  | Ok r => job_outcome job r
  | Raise e =>
      fst (os_makedirs E (OsPath.dirname (snd job)) (ext w)) = Raise e
  end
  /\ (String.eqb (backend (self w)) "TGrid" = false ->
      calls (snd (_download_file E job w))
      = calls w ++ [CallMakedirs (OsPath.dirname (snd job))]).
Proof.
  split; [apply download_file_cases|].
  intros Hb. destruct job as [remote_file local_file].
  unfold _download_file, bind, record_call, external_raising, observe,
    logger, ret, get_self. simpl.
  destruct (os_makedirs E _ (ext w)) as [[[]|e] x']; simpl; [|reflexivity].
  destruct (os_path_exists E local_file x'); simpl; [reflexivity|].
  rewrite Hb.
  destruct (String.eqb (backend (self w)) "alienpy"); reflexivity.
Qed.

(** *** The pool *)

Lemma pool_map_results (jobs : list (string * string)) :
  makedirs_never_raises E ->
  forall i globals w,
  exists results,
    fst (pool_map E jobs i globals w) = Ok results
    /\ Forall2 job_outcome jobs results.
Proof.
  intros Hfs.
  induction jobs as [|job rest IH]; intros i globals w.
  - exists []. split; [reflexivity | constructor].
  - cbn [pool_map]. unfold bind at 1. unfold in_process.
    pose proof (download_file_cases job
                  (with_conn (globals (pool_assign E i)) w)) as Hjob.
    destruct (_download_file E job _) as [[r|e] w'] eqn:Hrun;
      cbn [fst] in Hjob.
    + cbn [fst snd]. unfold bind at 1.
      match goal with
      | |- context [pool_map E rest (S i) ?g ?w2] =>
          destruct (IH (S i) g w2) as (results & Hres & Hall)
      end.
      destruct (pool_map E rest (S i) _ _) as [[rs|e] w'']; [|discriminate].
      injection Hres as ->.
      exists (r :: results). split; [reflexivity|]. now constructor.
    + cbn [ext with_conn] in Hjob. rewrite Hfs in Hjob. discriminate.
Qed.

(** One job of the pool while the grid serves [served]: it raises nothing,
    hands back its own local path when its source is served, and leaves a
    usable module global and the handler behind. *)
Lemma download_file_served (served : string -> bool) job w :
  makedirs_never_raises E ->
  grid_serves E served ->
  backend (self w) = "TGrid" ->
  usable (_worker_grid_connection w) ->
  exists r w',
    _download_file E job w = (Ok r, w')
    /\ served_outcome served job r
    /\ usable (_worker_grid_connection w')
    /\ self w' = self w.
Proof.
  intros Hfs [Hup Hcp] Hb Hg. destruct job as [remote_file local_file].
  unfold served_outcome, job_outcome. cbn [fst snd].
  unfold _download_file, bind, record_call, external_raising, observe,
    logger, ret, get_self. simpl.
  specialize (Hfs (OsPath.dirname local_file) (ext w)).
  destruct (os_makedirs E _ (ext w)) as [[[]|e] x1]; [|discriminate].
  simpl.
  destruct (os_path_exists E local_file x1); simpl.
  { eexists _, _. split; [reflexivity|]. repeat split; auto. }
  rewrite Hb. change (String.eqb "TGrid" "TGrid") with true. cbv iota.
  unfold _download_tgrid, tgrid_copy, bind, get_conn, record_call,
    external, observe, set_conn, logger, ret. simpl.
  destruct Hg as [Hg|Hg]; rewrite Hg; simpl.
  - rewrite Hup. simpl.
    specialize (Hcp (add_prefix "alien://" remote_file)
                  (add_prefix "file:" local_file) (TGrid_Connect E x1)).
    destruct (TFile_Cp E _ _ _) as [[|] x2]; simpl in *.
    + eexists _, _. split; [reflexivity|]. repeat split; auto.
      now right.
    + eexists _, _. split; [reflexivity|]. repeat split; auto.
      * intros Hs. rewrite Hs in Hcp. discriminate.
      * now right.
  - specialize (Hcp (add_prefix "alien://" remote_file)
                  (add_prefix "file:" local_file) x1).
    destruct (TFile_Cp E _ _ _) as [[|] x2]; simpl in *.
    + eexists _, _. split; [reflexivity|]. repeat split; auto.
      now right.
    + eexists _, _. split; [reflexivity|]. repeat split; auto.
      * intros Hs. rewrite Hs in Hcp. discriminate.
      * now right.
Qed.

(** The pool while the grid serves [served]: one result per job, each the
    outcome of its own job. *)
Lemma pool_map_served (served : string -> bool)
    (jobs : list (string * string)) :
  makedirs_never_raises E ->
  grid_serves E served ->
  forall i globals w,
  backend (self w) = "TGrid" ->
  (forall k, usable (globals k)) ->
  exists results,
    fst (pool_map E jobs i globals w) = Ok results
    /\ Forall2 (served_outcome served) jobs results.
Proof.
  intros Hfs Hgrid.
  induction jobs as [|job rest IH]; intros i globals w Hb Hglobals.
  - exists []. split; [reflexivity | constructor].
  - cbn [pool_map]. unfold bind at 1. unfold in_process.
    destruct (download_file_served served job
                (with_conn (globals (pool_assign E i)) w) Hfs Hgrid Hb
                (Hglobals _)) as (r & w' & Hrun & Hout & Huse & Hself).
    rewrite Hrun. cbn [fst snd]. unfold bind at 1.
    match goal with
    | |- context [pool_map E rest (S i) ?g ?w2] =>
        destruct (IH (S i) g w2) as (results & Hres & Hall)
    end.
    + cbn [with_conn self]. rewrite Hself. exact Hb.
    + intros k. destruct (Nat.eqb k (pool_assign E i)); [exact Huse|].
      apply Hglobals.
    + destruct (pool_map E rest (S i) _ _) as [[rs|e] w'']; [|discriminate].
      injection Hres as ->.
      exists (r :: results). split; [reflexivity|]. now constructor.
Qed.

(** The served jobs are at most as many as the results that carry a
    path. *)
Lemma served_jobs_counted (served : string -> bool)
    (jobs : list (string * string)) (results : list (option string)) :
  Forall2 (served_outcome served) jobs results ->
  (length (served_jobs served jobs) <= length (filter is_Some results))%nat.
Proof.
  unfold served_jobs.
  induction 1 as [|job r jobs results [_ Hserved] _ IH]; [reflexivity|].
  destruct (decide (served (add_prefix "alien://" (fst job)) = true))
    as [Hs|Hs].
  - rewrite filter_cons_True by exact Hs.
    rewrite (Hserved Hs). rewrite filter_cons_True by (eexists; reflexivity).
    cbn [length]. lia.
  - rewrite filter_cons_False by exact Hs.
    destruct r as [p|].
    + rewrite filter_cons_True by (eexists; reflexivity). cbn [length]. lia.
    + rewrite filter_cons_False by (intros [? [=]]). exact IH.
Qed.


(** The TGrid branch of [perform_download], spelled out. *)
Lemma perform_download_tgrid w (jobs : list (string * string)) :
  backend (self w) = "TGrid" ->
  let pickled :=
    match alien_session (self w) with
    | Bound _ => with_alien_session (self w) Deleted
    | Deleted => self w
    end in
  let w0 := mkWorld pickled (store w) (_worker_grid_connection w) (ext w)
              (log w) (calls w) in
  perform_download E jobs w =
  if num_workers (self w) <? 1 then (Raise ValueError, w0)
  else
    match pool_map E jobs 0%nat (fun _ => _worker_grid_connection w)
            (after w0 [] [CallPool (num_workers (self w)) pickled jobs]) with
    | (Ok results, w') =>
        (Ok RetNone,
         after w' [LogDone (Z.of_nat (length (filter is_Some results)))
                     (length jobs)] [])
    | (Raise e, w') => (Raise e, w')
    end.
Proof.
  intros Hbackend pickled w0.
  unfold perform_download. unfold bind at 1. unfold get_self at 1.
  cbn [self]. rewrite Hbackend.
  change (String.eqb "TGrid" "TGrid") with true. cbv iota.
  unfold run_pool, after. subst w0 pickled.
  destruct (num_workers (self w) <? 1).
  - unfold bind, raise, ret, set_alien_session.
    destruct (alien_session (self w)); [|reflexivity].
    destruct w as [h st g x lg cs]. reflexivity.
  - unfold bind, get_self, record_call, get_conn, logger, ret,
      set_alien_session.
    destruct (alien_session (self w)) eqn:Hs; simpl; rewrite ?app_nil_r.
    + destruct w as [h st g x lg cs]. simpl.
      destruct (pool_map E jobs 0%nat _ _) as [[rs|e] w'];
        simpl; rewrite ?app_nil_r; reflexivity.
    + destruct (pool_map E jobs 0%nat _ _) as [[rs|e] w'];
        simpl; rewrite ?app_nil_r; reflexivity.
Qed.

(** A TGrid run counts what it reports.  With fewer than one worker the
    pool cannot be created and [ValueError] is raised before any job runs.
    Otherwise, when [os.makedirs] does not fail, the run returns, and the
    last thing logged is exactly the number of results of the pool that are
    not [None], out of the number of jobs.  When moreover the grid connects
    and whether a copy succeeds depends on its source alone, that number is
    at least the number of jobs whose source is served. *)
Theorem tgrid_run_reports_count w (jobs : list (string * string)) :
  backend (self w) = "TGrid" ->
  let pickled :=
    match alien_session (self w) with
    | Bound _ => with_alien_session (self w) Deleted
    | Deleted => self w
    end in
  let w0 := mkWorld pickled (store w) (_worker_grid_connection w) (ext w)
              (log w) (calls w ++ [CallPool (num_workers (self w)) pickled
                                     jobs]) in
  (num_workers (self w) < 1 ->
   fst (perform_download E jobs w) = Raise ValueError
   /\ calls (snd (perform_download E jobs w)) = calls w)
  /\ (1 <= num_workers (self w) -> makedirs_never_raises E ->
      exists results,
        fst (pool_map E jobs 0%nat (fun _ => _worker_grid_connection w) w0)
        = Ok results
        /\ length results = length jobs
        /\ fst (perform_download E jobs w) = Ok RetNone
        /\ last (log (snd (perform_download E jobs w)))
           = Some (LogDone (Z.of_nat (length (filter is_Some results)))
                     (length jobs))
        /\ forall served,
             grid_serves E served ->
             usable (_worker_grid_connection w) ->
             (length (served_jobs served jobs)
              <= length (filter is_Some results))%nat).
Proof.
  intros Hbackend pickled w0.
  rewrite (perform_download_tgrid w jobs Hbackend).
  fold pickled. unfold after. cbn [self store _worker_grid_connection ext
                                    log calls].
  rewrite app_nil_r. fold w0. split.
  - intros Hlt. apply Z.ltb_lt in Hlt. rewrite Hlt. split; reflexivity.
  - intros Hge Hfs.
    assert (Hlt : (num_workers (self w) <? 1) = false) by (apply Z.ltb_ge; lia).
    rewrite Hlt.
    destruct (pool_map_results jobs Hfs 0%nat
                (fun _ => _worker_grid_connection w) w0)
      as (results & Hres & Hall).
    destruct (pool_map E jobs 0%nat (fun _ => _worker_grid_connection w) w0)
      as [[rs|e] w'] eqn:Hpool; cbn [fst] in Hres; [|discriminate Hres].
    injection Hres as ->.
    exists results. split; [reflexivity|].
    split; [symmetry; now apply Forall2_length in Hall|].
    split; [reflexivity|].
    split; [apply last_snoc|].
    intros served Hgrid Huse.
    assert (Hb0 : backend (self w0) = "TGrid").
    { subst w0 pickled. cbn [self].
      destruct (alien_session (self w)); exact Hbackend. }
    destruct (pool_map_served served jobs Hfs Hgrid 0%nat
                (fun _ => _worker_grid_connection w) w0 Hb0 (fun _ => Huse))
      as (results' & Hres' & Hall').
    rewrite Hpool in Hres'. injection Hres' as <-.
    now apply served_jobs_counted.
Qed.

End Driver.

(** ** The batch call, the constructor and the entry point *)

Section BatchAndMain.
Context {X : Type} (E : Externals X).
Implicit Types (w : World X) (cfg : Config).

Lemma download_alien_calls w (remote_files local_files : list string) :
  match _ensure_alien_connection E w with
  | (Ok (Some s), w1) =>
      calls (snd (_download_alien E remote_files local_files w))
      = calls w1 ++ [CallXrootdCp (alien_args (self w))
                       (map (add_prefix "alien://") remote_files)
                       (map (add_prefix "file:") local_files)]
  | (_, w1) => snd (_download_alien E remote_files local_files w) = w1
  end.
Proof.
  pose proof (steps_ensure_alien_connection E keeps_config w) as Hcfg.
  unfold _download_alien, bind.
  destruct (_ensure_alien_connection E w) as [[[s|]|e] w1]; try reflexivity.
  cbn [snd] in Hcfg. destruct Hcfg as (_ & _ & _ & _ & _ & Hargs).
  unfold try_except, bind, logger, get_self, record_call, external_raising,
    ret. simpl. rewrite Hargs.
  destruct (DO_XrootdCp E s _ _ _ (ext w1)) as [[u|e] x']; reflexivity.
Qed.

Lemma ensure_alien_connection_calls w :
  calls (snd (_ensure_alien_connection E w)) = calls w
  \/ calls (snd (_ensure_alien_connection E w))
     = calls w ++ [CallInitConnection].
Proof.
  unfold _ensure_alien_connection, bind, get_self, logger, record_call,
    external_raising, set_alien_session, ret, raise.
  destruct (negb (alien E)); [now left|].
  destruct (alien_session (self w)) as [|[s|]]; simpl; try (now left).
  destruct (InitConnection E (ext w)) as [[[s|]|e] x']; now right.
Qed.

(** The dispatch step of [download] for the alienpy backend
    ([perform_download], reached once the copy list is built) starts no pool
    and no TGrid connection.  Within this step a session is asked for once,
    which costs at most one [InitConnection]; with a session the whole batch
    then goes out in exactly one call of the copy client, carrying the
    handler's argument list as it is and the prefixed sources and
    destinations in the order of the jobs; without one nothing more is
    called.  Glob resolution, which comes before this step, asks for a
    session on its own account. *)
Theorem batch_is_one_call w (jobs : list (string * string)) :
  backend (self w) = "alienpy" ->
  let w1 := snd (_ensure_alien_connection E w) in
  (calls w1 = calls w \/ calls w1 = calls w ++ [CallInitConnection])
  /\ calls (snd (perform_download E jobs w))
     = match fst (_ensure_alien_connection E w) with
       | Ok (Some s) =>
           calls w1 ++ [CallXrootdCp (alien_args (self w))
                          (map (add_prefix "alien://") (map fst jobs))
                          (map (add_prefix "file:") (map snd jobs))]
       | _ => calls w1
       end.
Proof.
  intros Hbackend w1. split; [apply ensure_alien_connection_calls|].
  pose proof (download_alien_calls w (map fst jobs) (map snd jobs)) as Hcalls.
  unfold perform_download. unfold bind at 1. unfold get_self at 1.
  cbn [self]. rewrite Hbackend.
  change (String.eqb "alienpy" "TGrid") with false.
  change (String.eqb "alienpy" "alienpy") with true. cbv iota.
  unfold bind, logger, ret. subst w1.
  destruct (_ensure_alien_connection E w) as [[[s|]|e] w1]; cbn [fst snd] in *.
  all: destruct (_download_alien E _ _ w) as [[n|e'] w2]; cbn [snd] in *.
  all: try (now subst w2). all: exact Hcalls.
Qed.

Lemma alter_as_insert {A} (f : A -> A) (xs : list A) : forall l a,
  xs !! l = Some a -> alter f l xs = <[l := f a]> xs.
Proof.
  induction xs as [|x xs IH]; intros [|l] a Hl; try discriminate.
  - injection Hl as ->. reflexivity.
  - simpl. f_equal. now apply IH.
Qed.

(** The constructor when the configuration refers to an argument list. *)
Lemma init_with_list cfg (lists : ArgStore) w l args :
  cfg_alien_xrd_args cfg = Some (ArgsAt l) ->
  lists !! l = Some args ->
  let nw := default 16 (cfg_num_workers cfg) in
  let od := default "grid" (cfg_output_dir cfg) in
  exists w1,
    __init__ E cfg lists w
    = (fst (os_makedirs E od (ext w)),
       <[l := args ++ [workers_arg nw]]> lists, w1)
    /\ ext w1 = snd (os_makedirs E od (ext w))
    /\ (fst (os_makedirs E od (ext w)) = Ok tt ->
        alien_args (self w1) = args ++ [workers_arg nw]).
Proof.
  intros Hcfg Hl nw od. unfold __init__. rewrite Hcfg. cbv zeta.
  fold nw od. rewrite (alter_as_insert _ _ _ _ Hl).
  rewrite list_lookup_insert_eq by (eapply lookup_lt_Some; exact Hl).
  unfold bind, record_call, external_raising, logger, set_self. simpl.
  destruct (os_makedirs E od (ext w)) as [[[]|e] x1]; simpl.
  - eexists. split; [reflexivity|]. split; reflexivity.
  - eexists. split; [reflexivity|]. split; [reflexivity | discriminate].
Qed.

(** The constructor changes the caller's configuration.  When the
    configuration brings its own argument list, the nested entry
    [-T, workers] is appended to that very list, and this happens whether
    or not the constructor then fails on the output directory: what it
    raises is what [os.makedirs] raises.  A second handler built from the
    same configuration therefore gets, and leaves in the caller's list, two
    such entries.  Without the key the handler gets the four default
    arguments and one entry, and the caller's lists stay as they are.  An
    entry that is no list makes the constructor raise [AttributeError]
    before anything is created or called. *)
Theorem init_appends_in_place cfg (lists : ArgStore) w :
  let nw := default 16 (cfg_num_workers cfg) in
  let od := default "grid" (cfg_output_dir cfg) in
  (cfg_alien_xrd_args cfg = Some ArgsNotAList ->
   __init__ E cfg lists w = (Raise AttributeError, lists, w))
  /\ (cfg_alien_xrd_args cfg = None ->
      let '(r, lists1, w1) := __init__ E cfg lists w in
      r = fst (os_makedirs E od (ext w))
      /\ lists1 = lists
      /\ (r = Ok tt ->
          alien_args (self w1) = default_xrd_args ++ [workers_arg nw]))
  /\ (forall l args,
        cfg_alien_xrd_args cfg = Some (ArgsAt l) ->
        lists !! l = Some args ->
        let '(r1, lists1, w1) := __init__ E cfg lists w in
        let '(r2, lists2, w2) := __init__ E cfg lists1 w1 in
        r1 = fst (os_makedirs E od (ext w))
        /\ lists1 = <[l := args ++ [workers_arg nw]]> lists
        /\ (r1 = Ok tt -> alien_args (self w1) = args ++ [workers_arg nw])
        /\ r2 = fst (os_makedirs E od (ext w1))
        /\ lists2 = <[l := args ++ [workers_arg nw; workers_arg nw]]> lists
        /\ (r2 = Ok tt ->
            alien_args (self w2)
            = args ++ [workers_arg nw; workers_arg nw])).
Proof.
  intros nw od. split; [|split].
  - intros Hcfg. unfold __init__. rewrite Hcfg. reflexivity.
  - intros Hcfg. unfold __init__. rewrite Hcfg. fold nw od.
    unfold bind, record_call, external_raising, logger, set_self. simpl.
    destruct (os_makedirs E od (ext w)) as [[[]|e] x1]; simpl.
    + repeat split.
    + repeat split. discriminate.
  - intros l args Hcfg Hl.
    destruct (init_with_list cfg lists w l args Hcfg Hl)
      as (w1 & Hrun1 & _ & Hargs1).
    fold nw od in Hrun1, Hargs1. rewrite Hrun1.
    assert (Hl1 : <[l := args ++ [workers_arg nw]]> lists !! l
                  = Some (args ++ [workers_arg nw])).
    { apply list_lookup_insert_eq. eapply lookup_lt_Some. exact Hl. }
    destruct (init_with_list cfg _ w1 l _ Hcfg Hl1)
      as (w2 & Hrun2 & _ & Hargs2).
    fold nw od in Hrun2, Hargs2. rewrite Hrun2.
    rewrite list_insert_insert_eq, <- app_assoc in *.
    repeat split; assumption.
Qed.

(** How [main] ends.  The exit status is 0, 1 or 2.  It is 2 exactly for a
    command line that [parse_args] rejects.  It is 0 exactly when help was
    asked for, or when the configuration file held a JSON object, the
    constructor returned and [download] returned: no exception of class
    [Exception] raised while reading, constructing or downloading gets out
    of [main], each of them ends in status 1, and transfers that fail
    without raising leave the status at 0.  When [parse_args] ends the
    process nothing has been read, created or called. *)
Theorem main_exit_status (args : Parsed) (read_config : string -> Loaded) w :
  exists outcome,
    fst (main E args read_config w) = Ok outcome
    /\ (exit_status outcome = 0 \/ exit_status outcome = 1
        \/ exit_status outcome = 2)
    /\ (exit_status outcome = 2 <-> args = UsageError)
    /\ (exit_status outcome = 0 <->
        args = HelpRequested
        \/ exists config_path doc config w0 lists w1,
             args = ParsedArgs config_path
             /\ read_config config_path = ReadObject doc
             /\ load_config doc w = (Ok config, w0)
             /\ __init__ E config (arg_lists_of doc) w0 = (Ok tt, lists, w1)
             /\ raises (fst (download E w1)) = false)
    /\ (args = HelpRequested \/ args = UsageError ->
        snd (main E args read_config w) = w).
Proof.
  destruct args as [config_path| |]; simpl.
  - destruct (read_config config_path) as [e|doc|] eqn:Hread.
    + exists ConfigReadFailed. simpl. split; [reflexivity|].
      split; [auto|]. split; [split; discriminate|].
      split; [|intros [|]; discriminate].
      split; [discriminate|].
      intros [|(p & doc & ? & ? & ? & ? & [= <-] & Hdoc & _)];
        [discriminate|]. rewrite Hread in Hdoc. discriminate.
    + unfold bind at 1.
      destruct (load_config doc w) as [[config|e] w0] eqn:Hload.
      2:{ exfalso. revert Hload. unfold load_config, bind, new_list, ret.
          destruct (doc_remote_files doc); discriminate. }
      cbn [fst snd]. unfold bind at 1.
      destruct (__init__ E config (arg_lists_of doc) w0)
        as [[[[]|e] lists] w1] eqn:Hinit.
      * unfold try_except, bind, ret.
        destruct (download E w1) as [[r|e] w2] eqn:Hdl; simpl.
        -- exists MainDone. simpl. split; [reflexivity|].
           split; [auto|]. split; [split; discriminate|].
           split; [|intros [|]; discriminate].
           split; [|reflexivity]. intros _. right.
           exists config_path, doc, config, w0, lists, w1.
           rewrite Hdl. repeat split; assumption.
        -- exists DownloadFailed. simpl. split; [reflexivity|].
           split; [auto|]. split; [split; discriminate|].
           split; [|intros [|]; discriminate].
           split; [discriminate|].
           intros [|(p & doc' & c' & w0' & l' & w1' & [= <-] & Hdoc & Hl
                     & Hi & Hr)]; [discriminate|].
           rewrite Hread in Hdoc. injection Hdoc as <-.
           rewrite Hload in Hl. injection Hl as <- <-.
           rewrite Hinit in Hi. injection Hi as <- <-.
           rewrite Hdl in Hr. discriminate.
      * exists InitFailed. simpl. split; [reflexivity|].
        split; [auto|]. split; [split; discriminate|].
        split; [|intros [|]; discriminate].
        split; [discriminate|].
        intros [|(p & doc' & c' & w0' & l' & w1' & [= <-] & Hdoc & Hl
                  & Hi & _)]; [discriminate|].
        rewrite Hread in Hdoc. injection Hdoc as <-.
        rewrite Hload in Hl. injection Hl as <- <-.
        rewrite Hinit in Hi. discriminate.
    + exists InitFailed. simpl. split; [reflexivity|].
      split; [auto|]. split; [split; discriminate|].
      split; [|intros [|]; discriminate].
      split; [discriminate|].
      intros [|(p & doc & ? & ? & ? & ? & [= <-] & Hdoc & _)];
        [discriminate|]. rewrite Hread in Hdoc. discriminate.
  - exists (ArgparseExit 0). simpl. split; [reflexivity|].
    split; [auto|]. split; [split; discriminate|].
    split; [|reflexivity]. split; [now left | reflexivity].
  - exists (ArgparseExit 2). simpl. split; [reflexivity|].
    split; [auto|]. split; [split; reflexivity|].
    split; [|reflexivity]. split; [discriminate|].
    intros [|(? & ? & ? & ? & ? & ? & ? & _)]; discriminate.
Qed.

End BatchAndMain.

(** ** The further properties on concrete inputs *)

Lemma session_is_reused_witness :
  let w := Sim.world (Sim.handler "alienpy" None None) [] (Sim.grid_up []) in
  let w1 := snd (_ensure_alien_connection Sim.externals w) in
  _ensure_alien_connection Sim.externals w1 = (Ok (Some 7%nat), w1).
Proof.
  intros w w1.
  apply (session_is_reused Sim.externals w w1 7%nat).
  vm_compute. reflexivity.
Defined.

Lemma session_failure_is_retried_witness :
  let w := Sim.world (Sim.handler "alienpy" None None) [] Sim.grid_down in
  fst (_ensure_alien_connection Sim.externals w) = Ok None
  /\ calls (snd (_ensure_alien_connection Sim.externals
                   (snd (_ensure_alien_connection Sim.externals w))))
     = [CallInitConnection; CallInitConnection].
Proof.
  intros w.
  destruct (session_failure_is_retried Sim.externals w Sim.grid_down)
    as [H1 H2]; try (vm_compute; reflexivity).
  rewrite H1. split; [reflexivity | exact H2].
Defined.

Lemma tgrid_connection_is_reused_witness :
  let w := Sim.world (Sim.handler "TGrid" None None) [] (Sim.grid_up []) in
  let w1 := snd (_download_tgrid Sim.externals "/a/b/f.root" "grid/a/b/f.root" w) in
  _worker_grid_connection w1 = Handle true
  /\ calls (snd (_download_tgrid Sim.externals "/a/c/g.root" "grid/a/c/g.root" w1))
     = [CallTGridConnect;
        CallCp "alien:///a/b/f.root" "file:grid/a/b/f.root";
        CallCp "alien:///a/c/g.root" "file:grid/a/c/g.root"].
Proof.
  intros w w1.
  destruct (tgrid_connection_is_reused Sim.externals w
              "/a/b/f.root" "grid/a/b/f.root" "/a/c/g.root" "grid/a/c/g.root")
    as (_ & H2 & H3); try (vm_compute; reflexivity).
  split; [exact H2 | exact H3].
Defined.

Lemma resolve_loop_adds_kept_lines_witness :
  let w := Sim.world (Sim.handler "alienpy" None None) [["/old"]]
             (Sim.grid_up []) in
  exists added,
    store (snd (resolve_loop Sim.externals 7%nat 0%nat
                  [("/nowhere", "*"); ("/a", "*.root")] w)) !! 0%nat
    = Some (["/old"] ++ added)
    /\ Forall kept_line added.
Proof.
  intros w.
  apply (resolve_loop_adds_kept_lines Sim.externals 7%nat 0%nat
           [("/nowhere", "*"); ("/a", "*.root")] w ["/old"]).
  vm_compute. reflexivity.
Defined.

Lemma resolve_without_query_witness :
  let w := Sim.world (Sim.handler "TGrid" None (Some [])) [["/old"]]
             (Sim.grid_up []) in
  fst (_resolve_remote_globs Sim.externals w) = Ok 1%nat
  /\ calls (snd (_resolve_remote_globs Sim.externals w)) = [].
Proof.
  intros w.
  destruct (resolve_without_query Sim.externals w) as (H1 & _ & H3 & _);
    [right; left; vm_compute; reflexivity|].
  split; [exact H1 | exact H3].
Defined.

Lemma resolved_paths_are_kept_lines_witness :
  let w := Sim.world (Sim.handler "TGrid" None (Some [("/a", "*.root")])) []
             (Sim.grid_up []) in
  exists fs,
    store (snd (_resolve_remote_globs Sim.externals w)) !! 0%nat = Some fs
    /\ Forall kept_line fs.
Proof.
  intros w.
  apply (resolved_paths_are_kept_lines Sim.externals w 0%nat).
  vm_compute. reflexivity.
Defined.

Lemma download_aborts_on_unmappable_path_witness :
  let w := Sim.world (Sim.handler "TGrid" (Some 0%nat) None)
             [["/a/b/f.root"; "f.root"]] (Sim.grid_up []) in
  fst (download Sim.externals w) = Raise TypeError
  /\ calls (snd (download Sim.externals w)) = [].
Proof.
  intros w.
  rewrite (download_aborts_on_unmappable_path Sim.externals w
             (snd (expand_remote_globs Sim.externals w))
             ["/a/b/f.root"; "f.root"]).
  - split; vm_compute; reflexivity.
  - vm_compute. reflexivity.
  - vm_compute. reflexivity.
  - apply Exists_cons_tl, Exists_cons_hd. vm_compute. reflexivity.
Defined.

Lemma download_file_outcome_witness :
  let w := Sim.world (Sim.handler "alienpy" None None) [] (Sim.grid_up []) in
  fst (_download_file Sim.externals ("/a/b/f.root", "grid/a/b/f.root") w)
    = Ok None
  /\ calls (snd (_download_file Sim.externals
                   ("/a/b/f.root", "grid/a/b/f.root") w))
     = [CallMakedirs "grid/a/b"].
Proof.
  intros w.
  destruct (download_file_outcome Sim.externals
              ("/a/b/f.root", "grid/a/b/f.root") w) as [_ H2].
  split; [vm_compute; reflexivity|].
  apply H2. vm_compute. reflexivity.
Defined.

Lemma sim_steady_makedirs : makedirs_never_raises sim_steady.
Proof. intros d x. reflexivity. Qed.



(** Two of three files arrive, and that is what the run reports. *)
Lemma tgrid_run_reports_count_witness :
  let w := Sim.world (Sim.handler "TGrid" None None) [] (Sim.grid_up []) in
  let jobs := [("/a/b/f.root", "grid/a/b/f.root");
               ("/a/b/zz.root", "grid/a/b/zz.root");
               ("/a/c/g.root", "grid/a/c/g.root")] in
  fst (perform_download sim_steady jobs w) = Ok RetNone
  /\ last (log (snd (perform_download sim_steady jobs w)))
     = Some (LogDone 2 3).
Proof.
  intros w jobs.
  destruct (tgrid_run_reports_count sim_steady w jobs) as [_ H];
    [vm_compute; reflexivity|].
  destruct H as (results & Hres & _ & Hret & Hlast & _);
    [apply Z.leb_le; vm_compute; reflexivity | exact sim_steady_makedirs |].
  split; [exact Hret|]. rewrite Hlast.
  vm_compute in Hres. injection Hres as <-.
  vm_compute. reflexivity.
Defined.

Lemma batch_is_one_call_witness :
  let w := Sim.world (Sim.handler "alienpy" None None) [] (Sim.grid_up []) in
  calls (snd (perform_download Sim.externals
                [("/a/b/f.root", "grid/a/b/f.root")] w))
  = [CallInitConnection;
     CallXrootdCp
       [ArgStr "-timeout"; ArgStr "600"; ArgStr "-retry"; ArgStr "3";
        ArgList ["-T"; "16"]]
       ["alien:///a/b/f.root"] ["file:grid/a/b/f.root"]].
Proof.
  intros w.
  destruct (batch_is_one_call Sim.externals w
              [("/a/b/f.root", "grid/a/b/f.root")]) as [_ H];
    [vm_compute; reflexivity|].
  rewrite H. vm_compute. reflexivity.
Defined.

(** A constructor that fails on its output directory has already changed
    the caller's argument list, and a second attempt changes it again. *)
Lemma init_appends_in_place_witness :
  let cfg := mkConfig None (Some "") None None None None
               (Some (ArgsAt 0%nat)) in
  let w := Sim.world (Sim.handler "" None None) [] Sim.grid_down in
  let first := __init__ Sim.externals cfg [[ArgStr "-f"]] w in
  let second := __init__ Sim.externals cfg (snd (fst first)) (snd first) in
  fst (fst first) = Raise OSError
  /\ snd (fst first) = [[ArgStr "-f"; ArgList ["-T"; "16"]]]
  /\ snd (fst second)
     = [[ArgStr "-f"; ArgList ["-T"; "16"]; ArgList ["-T"; "16"]]].
Proof.
  intros cfg w first second.
  destruct (init_appends_in_place Sim.externals cfg [[ArgStr "-f"]] w)
    as (_ & _ & H).
  specialize (H 0%nat [ArgStr "-f"] eq_refl eq_refl).
  subst second first.
  destruct (__init__ Sim.externals cfg [[ArgStr "-f"]] w)
    as [[r1 lists1] w1].
  cbn [fst snd].
  destruct (__init__ Sim.externals cfg lists1 w1) as [[r2 lists2] w2].
  cbn [fst snd].
  destruct H as (H1 & H2 & _ & _ & H5 & _).
  rewrite H1, H2, H5. repeat split; vm_compute; reflexivity.
Defined.

(** With the grid down nothing is downloaded, and the exit status is 0 all
    the same. *)
Lemma main_exit_status_witness :
  let w := Sim.world (Sim.handler "" None None) [] Sim.grid_down in
  let run := main Sim.externals (ParsedArgs "config.json") read_one_file w in
  exists outcome,
    fst run = Ok outcome
    /\ exit_status outcome = 0
    /\ last (log (snd run)) = Some (LogDone 0 1).
Proof.
  intros w run.
  destruct (main_exit_status Sim.externals (ParsedArgs "config.json")
              read_one_file w) as (outcome & Hout & _ & _ & Hiff & _).
  exists outcome. split; [exact Hout|]. split; [|vm_compute; reflexivity].
  apply Hiff. right.
  pose (config := mkConfig None None (Some 0%nat) None None None None).
  pose (w0 := snd (load_config one_file_document w)).
  exists "config.json", one_file_document, config, w0, [],
    (snd (__init__ Sim.externals config [] w0)).
  repeat split; vm_compute; reflexivity.
Defined.
